(** * The room service (rooms REST API over a document store)

    The service is a set of Express route handlers, each of which issues one
    call to the Mongoose model [Room] and maps its outcome to an HTTP status
    and a JSON body.  The handlers and the schema are embedded from the
    source of the service with the five room routes.  The document store is
    not part of the repository: it is modelled here at the level of documents
    (construction, casting, schema validation, time stamps, unique indexes,
    the lookups by identifier), with the conversions of values that are not
    already of the declared type, and the reading of filter conditions that
    are not text, left to a [Driver] parameter.  The store is
    taken to be up: connection failures are outside the model. *)

From Stdlib Require Import QArith_base Ascii String.
From stdpp Require Import base numbers option list strings gmap.

Open Scope string_scope.
Set Warnings "-register-all".

(** ** Values and documents *)

(** The twelve-byte key of the store. *)
Definition ObjectId := N.

(** Milliseconds since the epoch. *)
Definition time := Z.

(** JSON values, extended with the two kinds of value that only the store
    creates: dates and keys. *)
Inductive value : Type :=
  | VNull
  | VBool (b : bool)
  | VNum (n : Q)
  | VStr (s : string)
  | VDate (t : time)
  | VOid (o : ObjectId)
  | VArr (l : list value)
  | VObj (l : list (string * value)).

(** A document, and a request body ([express.json()] hands the handler a JSON
    object): fields by name. *)
Abbreviation document := (gmap string value).

(** The collection behind the model, in storage order. *)
Abbreviation collection := (list (gmap string value)).

(** ** Schema *)

Inductive stype := TString | TNumber | TBoolean | TDate | TObjectId | TArray (elt : stype).

Record path_spec := {
  p_type : stype;
  p_required : bool;
  p_enum : option (list string);
  p_default : option value;
  p_unique : bool
}.

Definition plain (ty : stype) : path_spec :=
  {| p_type := ty; p_required := false; p_enum := None; p_default := None; p_unique := false |}.

(** [roomSchema], as declared by the service. An array path defaults to the
    empty array. *)
Definition roomSchema : list (string * path_spec) :=
  [ ("roomNumber", {| p_type := TString; p_required := true; p_enum := None;
                      p_default := None; p_unique := true |});
    ("type", {| p_type := TString; p_required := true;
                p_enum := Some ["single"; "double"; "suite"];
                p_default := None; p_unique := false |});
    ("price", {| p_type := TNumber; p_required := true; p_enum := None;
                 p_default := None; p_unique := false |});
    ("isAvailable", {| p_type := TBoolean; p_required := false; p_enum := None;
                       p_default := Some (VBool true); p_unique := false |});
    ("amenities", {| p_type := TArray TString; p_required := false; p_enum := None;
                     p_default := Some (VArr []); p_unique := false |});
    ("capacity", {| p_type := TNumber; p_required := true; p_enum := None;
                    p_default := None; p_unique := false |});
    ("description", plain TString);
    ("floor", {| p_type := TNumber; p_required := true; p_enum := None;
                 p_default := None; p_unique := false |}) ].

(** The paths the store adds to every schema: the key, the version counter and,
    with the option [timestamps: true] of [roomSchema], the two time stamps. *)
Definition keyPaths : list (string * path_spec) :=
  [ ("_id", plain TObjectId); ("__v", plain TNumber) ].

Definition stampPaths : list (string * path_spec) :=
  [ ("createdAt", plain TDate); ("updatedAt", plain TDate) ].

Definition storePaths : list (string * path_spec) := keyPaths ++ stampPaths.

Fixpoint assoc {A} (k : string) (l : list (string * A)) : option A :=
  match l with
  | [] => None
  | (k', a) :: l' => if String.eqb k k' then Some a else assoc k l'
  end.

Definition schemaPath (k : string) : option path_spec :=
  match assoc k roomSchema with
  | Some sp => Some sp
  | None => assoc k storePaths
  end.

(** ** Request bodies

    The keys of a request body are taken as names of fields. Outside the
    model are a key that addresses inside a value (a dotted path), a key that
    is an update operator (a leading dollar sign), the key [id], which some
    versions of the store read as [_id], and an [_id] that is null, which the
    versions of the store's driver do not treat alike. *)
Definition fieldName (k : string) : bool :=
  match k with
  | String "$" _ => false
  | _ => negb (existsb (Ascii.eqb ".") (list_ascii_of_string k)) && negb (String.eqb k "id")
  end.

Definition supported (obj : document) : bool :=
  forallb (fun kv => fieldName (fst kv)) (map_to_list obj) &&
  match obj !! "_id" with
  | Some VNull => false
  | _ => true
  end.

(** ** Casting *)

(** [has_type ty v]: the value [v] is already of the declared type [ty]. *)
Fixpoint has_type (ty : stype) (v : value) : bool :=
  match ty, v with
  | TString, VStr _ => true
  | TNumber, VNum _ => true
  | TBoolean, VBool _ => true
  | TDate, VDate _ => true
  | TObjectId, VOid _ => true
  | TArray elt, VArr l => forallb (has_type elt) l
  | _, _ => false
  end.

(** The errors with which a store call rejects. *)
Inductive storeError :=
  | CastError
  | ValidationError
  | DuplicateKey
  | ImmutableField
  | MissingId.

(** A parameter of a query string as the framework parses it: text, or, for a
    parameter that is repeated or written with brackets ([type=a&type=b],
    [type[$ne]=a]), an array or an object. *)
Inductive param :=
  | PText (s : string)
  | PArray (items : list param)
  | PObject (props : list (string * param)).

(** What the model takes from the store's driver.

    [convert]: the conversions the store attempts on a value that is neither
    null nor of the declared type (a number given for a string path, the text
    of a key given for [_id], ...); [None] when the store refuses with a
    [CastError].

    [condition]: how the store reads a condition of a filter that is an array
    or an object and not text: the error with which it refuses the condition,
    or the test on a document that the condition stands for. *)
Class Driver := {
  convert : stype -> value -> option value;
  condition : param -> storeError + (document -> bool)
}.

(** ** Outcome of a store call: a promise that resolves or rejects *)

Inductive promise (A : Type) :=
  | Resolved (a : A)
  | Rejected (e : storeError).

Arguments Resolved {A} a.
Arguments Rejected {A} e.

(** ** Responses *)

(** What [res.json] is given: a document, an array of documents, or one of the
    objects the handlers build. *)
Inductive json :=
  | Rooms (rooms : collection)
  | RoomDoc (room : document)
  | Message (message : string)
  | Failure (message : string) (error : storeError)
  | Deleted (message : string) (room : document).

Record response := { status : nat; body : json }.

(** [req.query] of [GET /rooms]: each of the two parameters that the handler
    reads is absent or has the value that the framework parsed. *)
Record reqQuery := { available : option param; type : option param }.

(** The query of a request that gives each parameter at most once, as text. *)
Definition textQuery (a ty : option string) : reqQuery :=
  {| available := PText <$> a; type := PText <$> ty |}.

(** The filter handed to [Room.find]: the two properties the handler may set. *)
Record filterQuery := { q_isAvailable : option bool; q_type : option param }.

(** The requests that the routes of the service accept. A create carries the
    key that the model generates for the new document, and a create and an
    update carry the time at which they are served. *)
Inductive request :=
  | GET_rooms (q : reqQuery)
  | GET_room (id : string)
  | POST_rooms (reqBody : document) (oid : ObjectId) (now : time)
  | PUT_room (id : string) (reqBody : document) (now : time)
  | DELETE_room (id : string).

(** ** Helpers on documents *)

Definition idOf (d : document) : option ObjectId :=
  match d !! "_id" with
  | Some (VOid o) => Some o
  | _ => None
  end.

Definition hasId (o : ObjectId) (d : document) : bool :=
  match idOf d with
  | Some o' => N.eqb o o'
  | None => false
  end.

Definition fieldStr (k : string) (d : document) : option string :=
  match d !! k with
  | Some (VStr s) => Some s
  | _ => None
  end.

(** The paths indexed [unique: true]: [roomNumber]. *)
Definition uniquePaths : list string :=
  map fst (List.filter (fun ksp => p_unique (snd ksp)) roomSchema).

(** Two documents collide on a unique index (indexed paths hold text). *)
Definition clashes (d other : document) : bool :=
  existsb (fun k =>
    match fieldStr k d, fieldStr k other with
    | Some s, Some s' => String.eqb s s'
    | _, _ => false
    end) uniquePaths.

Fixpoint replaceById (o : ObjectId) (d' : document) (db : collection) : collection :=
  match db with
  | [] => []
  | d :: rest => if hasId o d then d' :: rest else d :: replaceById o d' rest
  end.

Fixpoint removeById (o : ObjectId) (db : collection) : collection :=
  match db with
  | [] => []
  | d :: rest => if hasId o d then rest else d :: removeById o rest
  end.

(** ** Validators *)

(** [required]: the path holds a value, and text is not empty. *)
Definition checkRequired (v : option value) : bool :=
  match v with
  | None | Some VNull | Some (VStr "") => false
  | Some _ => true
  end.

(** [enum]: a value that is set is one of the listed strings. *)
Definition checkEnum (allowed : list string) (v : option value) : bool :=
  match v with
  | None | Some VNull => true
  | Some (VStr s) => existsb (String.eqb s) allowed
  | Some _ => false
  end.

Definition validPath (sp : path_spec) (v : option value) : bool :=
  (if p_required sp then checkRequired v else true) &&
  match p_enum sp with
  | Some allowed => checkEnum allowed v
  | None => true
  end.

(** Validation of a whole document, before it is saved. *)
Definition validate (doc : document) : bool :=
  forallb (fun ksp => validPath (snd ksp) (doc !! fst ksp)) roomSchema.

(** Update validators ([runValidators: true]) run on the paths of the update
    only. *)
Definition validateUpdate (upd : document) : bool :=
  forallb (fun ksp =>
    match upd !! fst ksp with
    | Some v => validPath (snd ksp) (Some v)
    | None => true
    end) roomSchema.

(** ** Time stamps *)

(** On save: [createdAt] keeps a value that is already set, else takes the
    clock; [updatedAt] of a new document is its [createdAt]. *)
Definition stampNew (now : time) (doc : document) : document :=
  let created := match doc !! "createdAt" with
                 | None | Some VNull => VDate now
                 | Some v => v
                 end in
  <["updatedAt" := created]> (<["createdAt" := created]> doc).

(** On update: [createdAt] is taken out of the update, [updatedAt] is set to
    the clock. *)
Definition applyTimestampsToUpdate (now : time) (upd : document) : document :=
  <["updatedAt" := VDate now]> (delete "createdAt" upd).

(** ** The collection *)

(** [insertOne]: the key index and the unique indexes (taken as built) refuse
    duplicates; a document without a key is not inserted (a document gets
    here without a key only from a body whose [_id] is null, which is
    outside the model, see [supported]). *)
Definition insertOne (d : document) (db : collection) : promise collection :=
  match idOf d with
  | None => Rejected MissingId
  | Some o =>
      if existsb (hasId o) db then Rejected DuplicateKey
      else if existsb (clashes d) db then Rejected DuplicateKey
      else Resolved (db ++ [d])%list
  end.

(** An update that names [_id] with another key than the document's. *)
Definition changesId (o : ObjectId) (upd : document) : bool :=
  match upd !! "_id" with
  | None => false
  | Some (VOid o') => negb (N.eqb o o')
  | Some _ => true
  end.

(** [findOneAndUpdate] by key with [{ new: true }]: the fields of the update
    are set on the first document with that key, which is returned as it is
    after the update; no document, no change. *)
Definition findOneAndUpdate (o : ObjectId) (upd : document) (db : collection)
  : promise (option document) * collection :=
  match List.find (hasId o) db with
  | None => (Resolved None, db)
  | Some d =>
      if changesId o upd then (Rejected ImmutableField, db)
      else if existsb (fun other => negb (hasId o other) && clashes upd other) db
      then (Rejected DuplicateKey, db)
      else let d' := upd ∪ d in (Resolved (Some d'), replaceById o d' db)
  end.

(** A document matches a filter when it has the value of every property that
    the filter sets. *)
Definition matchesAvailable (b : option bool) (d : document) : bool :=
  match b with
  | Some b => match d !! "isAvailable" with
              | Some (VBool b') => Bool.eqb b b'
              | _ => false
              end
  | None => true
  end.

Definition matchesType (t : option string) (d : document) : bool :=
  match t with
  | Some t => match d !! "type" with
              | Some (VStr t') => String.eqb t t'
              | _ => false
              end
  | None => true
  end.

(** A document under construction: its fields, and whether some field of the
    object it was built from could not be cast (a failed cast is reported when
    the document is validated). *)
Record draft := { fields : document; castError : bool }.

(** The document that [save] stores for a new document: the time stamps are
    set, and the version is 0. *)
Definition storedDoc (doc : draft) (now : time) : document :=
  <["__v" := VNum 0]> (stampNew now (fields doc)).

Section Service.

Context `{Driver}.

(** A path is set to null as null and to a value of its type as that value;
    everything else goes through the conversion, and may fail. *)
Definition cast (ty : stype) (v : value) : option value :=
  match v with
  | VNull => Some VNull
  | _ => if has_type ty v then Some v else convert ty v
  end.

(** The identifier of a request path, [req.params.id], is text. *)
Definition castId (id : string) : option value := cast TObjectId (VStr id).

(** Casting of one field of an object handed to the model. The schema is
    strict: a key that is not a path of the schema is dropped. *)
Definition castPath (k : string) (v : value) : option value :=
  match schemaPath k with
  | Some sp => cast (p_type sp) v
  | None => None
  end.

Definition castFails (k : string) (v : value) : bool :=
  match schemaPath k with
  | Some sp => match cast (p_type sp) v with None => true | Some _ => false end
  | None => false
  end.

Definition casted (obj : document) : document := map_imap castPath obj.

(** No path of the schema is given a value that cannot be cast. *)
Definition castable (obj : document) : bool :=
  forallb (fun kv => negb (castFails (fst kv) (snd kv))) (map_to_list obj).

(** *** The model [Room]

    What the model takes from the documented behaviour of the store:
    - an object handed to the model is read through the schema, which is
      strict: a key that is not a path is dropped, and the value of a path is
      cast to the type of the path;
    - [_id] is a path: an [_id] in the object handed to [new Room] is the key
      of the new document, and only without it is the generated key used;
    - [save] validates the document ([required], [enum], failed casts) and
      rejects it before anything is inserted; the insertion itself is
      rejected on a duplicate key or a duplicate value of a unique path;
    - [find] casts its filter before the collection is read: a text given
      for [type] is matched as it is written, an array or an object given
      for it is read as a condition, and [find] rejects when the condition is
      refused; the documents found come in storage order;
    - a lookup by identifier first casts the identifier to a key, and rejects
      when it cannot;
    - [findByIdAndUpdate] casts the update and, with [runValidators], runs
      the validators of the paths that the update names, both before the
      collection is queried; it sets the named paths and leaves the others;
    - with [timestamps], a new document gets [createdAt] and [updatedAt], and
      every update sets [updatedAt]. *)

Definition defaults (oid : ObjectId) : document :=
  <["_id" := VOid oid]>
    (list_to_map (omap (fun ksp => pair (fst ksp) <$> p_default (snd ksp)) roomSchema)).

(** [new Room(obj)]: the defaults (among them a generated key [oid]), then the
    fields of [obj] cast by the schema, which take the place of the defaults. *)
Definition new_Room (obj : document) (oid : ObjectId) : draft :=
  {| fields := casted obj ∪ defaults oid; castError := negb (castable obj) |}.

(** [doc.save()]: validation, time stamps and version, then the insertion. The
    promise resolves with the document as it is stored. *)
Definition save (doc : draft) (now : time) (db : collection)
  : promise document * collection :=
  if castError doc || negb (validate (fields doc)) then (Rejected ValidationError, db)
  else
    let stored := storedDoc doc now in
    match insertOne stored db with
    | Resolved db' => (Resolved stored, db')
    | Rejected e => (Rejected e, db)
    end.

(** The test that the condition on [type] of a filter stands for: a text is
    matched as it is written, and an array or an object is read by the
    store, which may refuse it. *)
Definition castType (t : option param) : storeError + (document -> bool) :=
  match t with
  | None => inr (matchesType None)
  | Some (PText t) => inr (matchesType (Some t))
  | Some t => condition t
  end.

(** [Room.find(query)]: the filter is cast before the collection is read. *)
Definition find (query : filterQuery) (db : collection) : promise collection :=
  match castType (q_type query) with
  | inl e => Rejected e
  | inr test =>
      Resolved (List.filter (fun d => matchesAvailable (q_isAvailable query) d && test d) db)
  end.

(** [Room.findById(id)]: the identifier is cast to a key, and a filter value
    that is not a key matches no document. *)
Definition findById (id : string) (db : collection) : promise (option document) :=
  match castId id with
  | None => Rejected CastError
  | Some (VOid o) => Resolved (List.find (hasId o) db)
  | Some _ => Resolved None
  end.

(** [Room.findByIdAndUpdate(id, update, { new: true, runValidators: true })]:
    the key and the update are cast and the update is validated before the
    collection is touched. The keys of the update are read as names of
    fields: an update operator among them is outside the model, see
    [supported]. *)
Definition findByIdAndUpdate (id : string) (update : document) (now : time)
    (db : collection) : promise (option document) * collection :=
  match castId id with
  | None => (Rejected CastError, db)
  | Some k =>
      let upd := applyTimestampsToUpdate now update in
      if negb (castable upd) then (Rejected CastError, db)
      else if negb (validateUpdate (casted upd)) then (Rejected ValidationError, db)
      else match k with
           | VOid o => findOneAndUpdate o (casted upd) db
           | _ => (Resolved None, db)
           end
  end.

(** [Room.findByIdAndDelete(id)] *)
Definition findByIdAndDelete (id : string) (db : collection)
  : promise (option document) * collection :=
  match castId id with
  | None => (Rejected CastError, db)
  | Some (VOid o) =>
      match List.find (hasId o) db with
      | Some d => (Resolved (Some d), removeById o db)
      | None => (Resolved None, db)
      end
  | Some _ => (Resolved None, db)
  end.

(** ** The route handlers *)

(** [p === s] for a text [s]: a parameter that is not text is not equal to
    it. *)
Definition strictEq (p : param) (s : string) : bool :=
  match p with
  | PText s' => String.eqb s' s
  | _ => false
  end.

(** [if (p)]: of the values of a parameter only the empty text is false. *)
Definition truthy (p : param) : bool :=
  match p with
  | PText "" => false
  | _ => true
  end.

(** [app.get('/rooms')] *)
Definition get_rooms (q : reqQuery) (db : collection) : response :=
  let query :=
    {| q_isAvailable := match available q with
                        | Some a => Some (strictEq a "true")
                        | None => None
                        end;
       q_type := match type q with
                 | Some t => if truthy t then Some t else None
                 | None => None
                 end |} in
  match find query db with
  | Resolved rooms => {| status := 200; body := Rooms rooms |}
  | Rejected error => {| status := 500; body := Failure "Error retrieving rooms" error |}
  end.

(** [app.get('/rooms/:id')] *)
Definition get_room (id : string) (db : collection) : response :=
  match findById id db with
  | Resolved None => {| status := 404; body := Message "Room not found" |}
  | Resolved (Some room) => {| status := 200; body := RoomDoc room |}
  | Rejected error => {| status := 500; body := Failure "Error retrieving room" error |}
  end.

(** [app.post('/rooms')]; [oid] is the key the model generates for the new
    document and [now] the clock. *)
Definition post_rooms (reqBody : document) (oid : ObjectId) (now : time)
    (db : collection) : response * collection :=
  let newRoom := new_Room reqBody oid in
  match save newRoom now db with
  | (Resolved room, db') => ({| status := 201; body := RoomDoc room |}, db')
  | (Rejected error, db') =>
      ({| status := 500; body := Failure "Error creating room" error |}, db')
  end.

(** [app.put('/rooms/:id')] *)
Definition put_room (id : string) (reqBody : document) (now : time)
    (db : collection) : response * collection :=
  match findByIdAndUpdate id reqBody now db with
  | (Resolved None, db') => ({| status := 404; body := Message "Room not found" |}, db')
  | (Resolved (Some room), db') => ({| status := 200; body := RoomDoc room |}, db')
  | (Rejected error, db') =>
      ({| status := 500; body := Failure "Error updating room" error |}, db')
  end.

(** [app.delete('/rooms/:id')] *)
Definition delete_room (id : string) (db : collection) : response * collection :=
  match findByIdAndDelete id db with
  | (Resolved None, db') => ({| status := 404; body := Message "Room not found" |}, db')
  | (Resolved (Some room), db') =>
      ({| status := 200; body := Deleted "Room deleted successfully" room |}, db')
  | (Rejected error, db') =>
      ({| status := 500; body := Failure "Error deleting room" error |}, db')
  end.

(** The routes of [app]. *)
Definition app (r : request) (db : collection) : response * collection :=
  match r with
  | GET_rooms q => (get_rooms q db, db)
  | GET_room id => (get_room id db, db)
  | POST_rooms reqBody oid now => post_rooms reqBody oid now db
  | PUT_room id reqBody now => put_room id reqBody now db
  | DELETE_room id => delete_room id db
  end.

(** The collections that the service reaches from the empty one. *)
Inductive reachable : collection -> Prop :=
  | reachable_empty : reachable []
  | reachable_step r db : reachable db -> reachable (snd (app r db)).

(** A request whose body, when it has one, is made of names of fields (see
    [supported]). *)
Definition supportedRequest (r : request) : bool :=
  match r with
  | POST_rooms reqBody _ _ | PUT_room _ reqBody _ => supported reqBody
  | _ => true
  end.

(** The collections that the service reaches from the empty one by such
    requests. *)
Inductive reachableSupported : collection -> Prop :=
  | supported_empty : reachableSupported []
  | supported_step r db :
      reachableSupported db -> supportedRequest r = true ->
      reachableSupported (snd (app r db)).

(** ** Conditions on requests *)

(** A field of a request body conforms to its path: a required field is
    there, and a field that is there casts to a value that passes the
    validators of the path. *)
Definition fieldConforms (reqBody : document) (k : string) (sp : path_spec) : bool :=
  match reqBody !! k with
  | None => negb (p_required sp)
  | Some v => match cast (p_type sp) v with
              | Some w => validPath sp (Some w)
              | None => false
              end
  end.

(** The request body has all required fields and satisfies the constraints of
    the schema on every path. *)
Definition conforms (reqBody : document) : bool :=
  forallb (fun ksp => fieldConforms reqBody (fst ksp) (snd ksp)) (roomSchema ++ storePaths).

(** The key that a request body asks for, and the generated key without. *)
Definition payloadKey (reqBody : document) (oid : ObjectId) : option ObjectId :=
  match reqBody !! "_id" with
  | None => Some oid
  | Some v => match cast TObjectId v with
              | Some (VOid o) => Some o
              | _ => None
              end
  end.

(** The room number that a request body asks for. *)
Definition payloadRoomNumber (reqBody : document) : option string :=
  match reqBody !! "roomNumber" with
  | Some v => match cast TString v with
              | Some (VStr s) => Some s
              | _ => None
              end
  | None => None
  end.

(** No stored room has the room number that the request body asks for. *)
Definition roomNumberFree (reqBody : document) (db : collection) : Prop :=
  forall s, payloadRoomNumber reqBody = Some s ->
            Forall (fun d => d !! "roomNumber" <> Some (VStr s)) db.

Definition violatesType (reqBody : document) : Prop :=
  exists k v, reqBody !! k = Some v /\ castFails k v = true.

(** A field of an update conforms to its path: it casts to a value that passes
    the validators of the path. *)
Definition updateFieldConforms (update : document) (k : string) (sp : path_spec) : bool :=
  match update !! k with
  | None => true
  | Some v => match cast (p_type sp) v with
              | Some w => validPath sp (Some w)
              | None => false
              end
  end.

(** The update satisfies the constraints of the schema on every path it
    names (the time stamps, which the store sets itself, apart). *)
Definition updateConforms (update : document) : bool :=
  forallb (fun ksp => updateFieldConforms update (fst ksp) (snd ksp)) (roomSchema ++ keyPaths).

(** An update that names [_id] names the key of the room it updates. *)
Definition keepsKey (o : ObjectId) (update : document) : Prop :=
  forall v, update !! "_id" = Some v -> cast TObjectId v = Some (VOid o).

(** No other stored room has the room number that the update asks for. *)
Definition roomNumberFreeFor (o : ObjectId) (update : document) (db : collection) : Prop :=
  forall s, payloadRoomNumber update = Some s ->
            Forall (fun d => idOf d <> Some o -> d !! "roomNumber" <> Some (VStr s)) db.

End Service.

(** ** Conditions on the collection and on requests *)

(** Identifiers are unique across the collection. *)
Definition uniqueIds (db : collection) : Prop := NoDup (map idOf db).

(** What the availability parameter selects: the rooms whose [isAvailable] is
    the boolean that the text stands for, [true] for the text [true] and
    [false] for any other text. *)
Definition availabilitySelects (a : option string) (d : document) : Prop :=
  match a with
  | Some a => d !! "isAvailable" = Some (VBool (bool_decide (a = "true")))
  | None => True
  end.

(** What the availability parameter selects, whatever its form: a parameter
    that is not text stands for [false], as every text but [true] does. *)
Definition anyAvailabilitySelects (a : option param) (d : document) : Prop :=
  match a with
  | Some (PText a) => availabilitySelects (Some a) d
  | Some _ => d !! "isAvailable" = Some (VBool false)
  | None => True
  end.

(** A parameter that is an array or an object. *)
Definition notText (p : param) : Prop :=
  match p with
  | PText _ => False
  | _ => True
  end.

(** What the type parameter selects when every supplied text is a filter. *)
Definition typeSupplied (ty : option string) (d : document) : Prop :=
  match ty with
  | Some t => d !! "type" = Some (VStr t)
  | None => True
  end.

(** What the type parameter selects in the handler: the empty text is no
    filter. *)
Definition typeSelects (ty : option string) (d : document) : Prop :=
  match ty with
  | Some t => t = "" \/ d !! "type" = Some (VStr t)
  | None => True
  end.

(** The ways in which a request body breaks the schema. *)
Definition missingRequired (reqBody : document) : Prop :=
  exists k sp, (k, sp) ∈ roomSchema /\ p_required sp = true /\ reqBody !! k = None.

Definition violatesEnum (reqBody : document) : Prop :=
  exists k sp allowed t,
    (k, sp) ∈ roomSchema /\ p_enum sp = Some allowed /\
    reqBody !! k = Some (VStr t) /\ t ∉ allowed.

Definition violatesUnique (reqBody : document) (db : collection) : Prop :=
  exists s d, reqBody !! "roomNumber" = Some (VStr s) /\
              d ∈ db /\ d !! "roomNumber" = Some (VStr s).

(** ** A driver to run the model on concrete requests

    It reads a key from its text of twenty-four hexadecimal digits, and
    converts nothing else: every other value that is not of the declared type
    is refused. *)

Definition hexDigit (c : ascii) : option N :=
  let n := N_of_ascii c in
  if (48 <=? n)%N && (n <=? 57)%N then Some (n - 48)%N
  else if (97 <=? n)%N && (n <=? 102)%N then Some (n - 87)%N
  else if (65 <=? n)%N && (n <=? 70)%N then Some (n - 55)%N
  else None.

Fixpoint hexValue (s : string) (acc : N) : option N :=
  match s with
  | EmptyString => Some acc
  | String c rest =>
      match hexDigit c with
      | Some d => hexValue rest (16 * acc + d)%N
      | None => None
      end
  end.

Definition hexObjectId (s : string) : option ObjectId :=
  if Nat.eqb (String.length s) 24 then hexValue s 0%N else None.

Definition hexConvert (ty : stype) (v : value) : option value :=
  match ty, v with
  | TObjectId, VStr s => VOid <$> hexObjectId s
  | _, _ => None
  end.

(** The conditions on [type] that the driver of the examples reads: an array
    of texts selects the rooms whose type is one of the texts, and the object
    [{ $ne: t }] the rooms whose type is not [t]; it refuses every other
    condition. *)
Definition texts (items : list param) : option (list string) :=
  mapM (fun p => match p with PText s => Some s | _ => None end) items.

Definition knownCondition (p : param) : storeError + (document -> bool) :=
  match p with
  | PArray items =>
      match texts items with
      | Some ts => inr (fun d => existsb (fun t => matchesType (Some t) d) ts)
      | None => inl CastError
      end
  | PObject [(op, PText t)] =>
      if String.eqb op "$ne" then inr (fun d => negb (matchesType (Some t) d))
      else inl CastError
  | _ => inl CastError
  end.

Definition hexDriver : Driver := {| convert := hexConvert; condition := knownCondition |}.

(** *** Sample requests and a sample collection *)

Definition room101 : document :=
  list_to_map [ ("roomNumber", VStr "101"); ("type", VStr "suite");
                ("price", VNum (Qmake 150 1)); ("capacity", VNum (Qmake 2 1));
                ("floor", VNum (Qmake 4 1)) ].

Definition room102 : document :=
  list_to_map [ ("roomNumber", VStr "102"); ("type", VStr "double");
                ("price", VNum (Qmake 90 1)); ("capacity", VNum (Qmake 2 1));
                ("floor", VNum (Qmake 1 1)); ("isAvailable", VBool false) ].

(** The room that [POST /rooms] stores for [room101] with the generated key 7
    at time 1000. *)
Definition stored101 : document :=
  list_to_map [ ("_id", VOid 7%N); ("roomNumber", VStr "101"); ("type", VStr "suite");
                ("price", VNum (Qmake 150 1)); ("capacity", VNum (Qmake 2 1));
                ("floor", VNum (Qmake 4 1)); ("isAvailable", VBool true);
                ("amenities", VArr []); ("createdAt", VDate 1000%Z);
                ("updatedAt", VDate 1000%Z); ("__v", VNum 0) ].

Definition db1 : collection := [stored101].

(** A second stored room, which is not available. *)
Definition stored102 : document :=
  list_to_map [ ("_id", VOid 8%N); ("roomNumber", VStr "102"); ("type", VStr "double");
                ("price", VNum (Qmake 90 1)); ("capacity", VNum (Qmake 2 1));
                ("floor", VNum (Qmake 1 1)); ("isAvailable", VBool false);
                ("amenities", VArr []); ("createdAt", VDate 2000%Z);
                ("updatedAt", VDate 2000%Z); ("__v", VNum 0) ].

Definition db2 : collection := [stored101; stored102].

(** Two updates: a new price, and a type outside the enumeration. *)
Definition price200 : document := {[ "price" := VNum (Qmake 200 1) ]}.
Definition penthouse : document := {[ "type" := VStr "penthouse" ]}.

(** The room [stored101] after the update [price200] at time 2000. *)
Definition updated101 : document :=
  <["price" := VNum (Qmake 200 1)]> (<["updatedAt" := VDate 2000%Z]> stored101).

(** Three values of the type parameter that are not text: the parameter
    given twice ([type=suite&type=single]) and given with a bracket
    ([type[$ne]=suite], [type[price]=1]). *)
Definition suiteOrSingle : param := PArray [PText "suite"; PText "single"].
Definition notSuite : param := PObject [("$ne", PText "suite")].
Definition byPrice : param := PObject [("price", PText "1")].

(** The text of the keys 7 and 8, and the text of a key chosen by a client. *)
Definition key7 : string := "000000000000000000000007".
Definition key8 : string := "000000000000000000000008".
Definition clientKey : string := "64f74c8e524a1c0012a34567".

(** ** Conditions on stored rooms *)

(** Every stored room carries a key. *)
Definition keyed (db : collection) : Prop := Forall (fun d => is_Some (idOf d)) db.

(** Every stored room passes the validators of the schema. *)
Definition allValid (db : collection) : Prop := Forall (fun d => validate d = true) db.

(** The room numbers in the collection, in storage order. *)
Definition roomNumbers (db : collection) : list string := omap (fieldStr "roomNumber") db.

(** ** The earlier services of the repository

    [index.js] holds two earlier services with two routes each: rooms that
    have a name and a status, and entities that have a name. Their schemas
    have no time stamps, no defaults and no unique path, and their create
    routes hand the model an object made of the named properties of the
    request body only. *)

Definition required (ty : stype) : path_spec :=
  {| p_type := ty; p_required := true; p_enum := None; p_default := None; p_unique := false |}.

(** [roomSchema] of the service of rooms with a name and a status. *)
Definition roomSchemaV1 : list (string * path_spec) :=
  [ ("name", required TString); ("status", required TString) ].

(** [entitySchema] *)
Definition entitySchema : list (string * path_spec) := [ ("name", required TString) ].

(** The object literal [{ k1, k2, ... }] over variables destructured from the
    request body: a property that the body does not have is undefined, which
    the model reads as not set. *)
Definition pick (keys : list string) (reqBody : document) : document :=
  filter (fun kv => fst kv ∈ keys) reqBody.

(** Validation of a document against a schema given as a list of paths. *)
Definition validateOf (paths : list (string * path_spec)) (doc : document) : bool :=
  forallb (fun ksp => validPath (snd ksp) (doc !! fst ksp)) paths.

(** The insertion into a collection without unique paths: only the key index
    refuses duplicates. *)
Definition insertKeyed (d : document) (db : collection) : promise collection :=
  match idOf d with
  | None => Rejected MissingId
  | Some o =>
      if existsb (hasId o) db then Rejected DuplicateKey
      else Resolved (db ++ [d])%list
  end.

Section Earlier.

Context `{Driver}.

(** One path of a document under construction: a field of the object is cast
    to the type of the path (a failed cast is remembered), and a path that the
    object does not set takes its default. *)
Definition setPath (k : string) (sp : path_spec) (v : option value) (doc : draft) : draft :=
  match v with
  | Some v =>
      match cast (p_type sp) v with
      | Some w => {| fields := <[k := w]> (fields doc); castError := castError doc |}
      | None => {| fields := fields doc; castError := true |}
      end
  | None =>
      match p_default sp with
      | Some v => {| fields := <[k := v]> (fields doc); castError := castError doc |}
      | None => doc
      end
  end.

(** The document of a model is built path by path; what the object has beside
    the paths is dropped. *)
Fixpoint build (paths : list (string * path_spec)) (obj : document) (start : draft) : draft :=
  match paths with
  | [] => start
  | (k, sp) :: rest => setPath k sp (obj !! k) (build rest obj start)
  end.

(** [new Model(obj)] for a schema without time stamps; [oid] is the generated
    key, which an [_id] of the object would replace. *)
Definition newDoc (paths : list (string * path_spec)) (obj : document) (oid : ObjectId)
  : draft :=
  build (paths ++ keyPaths) obj {| fields := {[ "_id" := VOid oid ]}; castError := false |}.

(** [doc.save()] for a schema without time stamps. *)
Definition saveDoc (paths : list (string * path_spec)) (doc : draft) (db : collection)
  : promise document * collection :=
  if castError doc || negb (validateOf paths (fields doc)) then (Rejected ValidationError, db)
  else
    let stored := <["__v" := VNum 0]> (fields doc) in
    match insertKeyed stored db with
    | Resolved db' => (Resolved stored, db')
    | Rejected e => (Rejected e, db)
    end.

(** [Model.find()] without a filter. *)
Definition findAll (db : collection) : promise collection := Resolved db.

(** [app.get('/rooms')] of the service of rooms with a name and a status *)
Definition get_rooms_v1 (db : collection) : response :=
  match findAll db with
  | Resolved rooms => {| status := 200; body := Rooms rooms |}
  | Rejected error => {| status := 500; body := Failure "Error retrieving rooms" error |}
  end.

(** [app.post('/rooms')] of the service of rooms with a name and a status *)
Definition post_rooms_v1 (reqBody : document) (oid : ObjectId) (db : collection)
  : response * collection :=
  let newRoom := newDoc roomSchemaV1 (pick ["name"; "status"] reqBody) oid in
  match saveDoc roomSchemaV1 newRoom db with
  | (Resolved room, db') => ({| status := 201; body := RoomDoc room |}, db')
  | (Rejected error, db') =>
      ({| status := 500; body := Failure "Error creating room" error |}, db')
  end.

(** [app.get('/entities')]; the array of entities is answered as [Rooms] and
    one entity as [RoomDoc], the kinds of body that hold documents. *)
Definition get_entities (db : collection) : response :=
  match findAll db with
  | Resolved entities => {| status := 200; body := Rooms entities |}
  | Rejected error => {| status := 500; body := Failure "Error retrieving entities" error |}
  end.

(** [app.post('/entities')] *)
Definition post_entities (reqBody : document) (oid : ObjectId) (db : collection)
  : response * collection :=
  let newEntity := newDoc entitySchema (pick ["name"] reqBody) oid in
  match saveDoc entitySchema newEntity db with
  | (Resolved entity, db') => ({| status := 201; body := RoomDoc entity |}, db')
  | (Rejected error, db') =>
      ({| status := 500; body := Failure "Error creating entity" error |}, db')
  end.

(** A property of the request body that a required path of text accepts: it
    is there, and casts to a value that is neither null nor the empty text. *)
Definition textGiven (v : option value) : bool :=
  match v with
  | Some v => match cast TString v with
              | Some w => checkRequired (Some w)
              | None => false
              end
  | None => false
  end.

End Earlier.

(** *** Sample requests to the earlier services *)

(** A body that gives a name and a status, and an [_id] and a colour beside. *)
Definition blueRoom : document :=
  list_to_map [ ("name", VStr "Blue"); ("status", VStr "free");
                ("_id", VStr "64f74c8e524a1c0012a34567"); ("color", VStr "blue") ].

(** The same name and status, and nothing beside. *)
Definition blueRoomOnly : document :=
  list_to_map [ ("name", VStr "Blue"); ("status", VStr "free") ].

(** A body without a status. *)
Definition nameOnly : document := {[ "name" := VStr "Blue" ]}.

(** * Properties *)

(** ** Keys and lookups in the collection *)

Lemma hasId_true o d : hasId o d = true <-> idOf d = Some o.
Proof.
  unfold hasId. destruct (idOf d) as [o'|]; [|split; discriminate].
  rewrite N.eqb_eq. split; [intros ->; reflexivity | intros [= ->]; reflexivity].
Qed.

Lemma hasId_false o d : hasId o d = false <-> idOf d <> Some o.
Proof.
  rewrite <- hasId_true. destruct (hasId o d); split; congruence.
Qed.

Lemma find_hasId_Some o db d :
  List.find (hasId o) db = Some d -> d ∈ db /\ idOf d = Some o.
Proof.
  intros Hf. apply find_some in Hf as [Hin Hid].
  split; [by apply list_elem_of_In | by apply hasId_true].
Qed.

Lemma find_hasId_None o db :
  List.find (hasId o) db = None <-> Forall (fun d => idOf d <> Some o) db.
Proof.
  induction db as [|d db IH]; simpl.
  - split; [constructor | reflexivity].
  - destruct (hasId o d) eqn:E.
    + split; [discriminate|]. intros HF. apply Forall_cons in HF as [Hd _].
      apply hasId_true in E. contradiction.
    + rewrite IH. apply hasId_false in E. split.
      * intros HF. by constructor.
      * intros HF. by apply Forall_cons in HF as [_ ?].
Qed.

(** Under unique identifiers, the lookup by key finds the one document that
    carries the key. *)
Lemma find_hasId_unique o db d :
  uniqueIds db -> d ∈ db -> idOf d = Some o -> List.find (hasId o) db = Some d.
Proof.
  unfold uniqueIds. induction db as [|d' db IH]; simpl; intros Hnd Hin Hid.
  - by apply elem_of_nil in Hin.
  - apply NoDup_cons in Hnd as [Hnotin Hnd].
    apply elem_of_cons in Hin as [<-|Hin].
    + apply hasId_true in Hid. by rewrite Hid.
    + destruct (hasId o d') eqn:E; [|by apply IH].
      apply hasId_true in E. exfalso. apply Hnotin.
      rewrite E, <- Hid. by apply list_elem_of_fmap_2.
Qed.

Lemma existsb_hasId_false o db :
  existsb (hasId o) db = false <-> Forall (fun d => idOf d <> Some o) db.
Proof.
  induction db as [|d db IH]; simpl.
  - split; [constructor | reflexivity].
  - rewrite orb_false_iff, IH, hasId_false, Forall_cons. reflexivity.
Qed.

Lemma removeById_gone o db :
  uniqueIds db -> Forall (fun d => idOf d <> Some o) (removeById o db).
Proof.
  unfold uniqueIds. induction db as [|d db IH]; simpl; intros Hnd; [constructor|].
  apply NoDup_cons in Hnd as [Hnotin Hnd].
  destruct (hasId o d) eqn:E.
  - apply hasId_true in E. apply Forall_forall. intros d' Hin Hid.
    apply Hnotin. rewrite E, <- Hid. by apply list_elem_of_fmap_2.
  - apply hasId_false in E. constructor; [done | by apply IH].
Qed.

Lemma removeById_sub o db d : d ∈ removeById o db -> d ∈ db.
Proof.
  induction db as [|d' db IH]; simpl; [done|].
  destruct (hasId o d'); rewrite ?elem_of_cons; [tauto|].
  intros [->|Hin]; [by left | right; by apply IH].
Qed.

Lemma removeById_others o db d :
  d ∈ db -> idOf d <> Some o -> d ∈ removeById o db.
Proof.
  intros Hin Hid. apply hasId_false in Hid.
  induction db as [|d' db IH]; simpl; [done|].
  apply elem_of_cons in Hin as [->|Hin].
  - rewrite Hid. by left.
  - destruct (hasId o d'); [done | right; by apply IH].
Qed.

Lemma removeById_unique o db : uniqueIds db -> uniqueIds (removeById o db).
Proof.
  unfold uniqueIds. induction db as [|d db IH]; simpl; intros Hnd; [done|].
  apply NoDup_cons in Hnd as [Hnotin Hnd].
  destruct (hasId o d); [done|]. simpl. apply NoDup_cons. split; [|by apply IH].
  intros Hin. apply Hnotin. apply list_elem_of_fmap in Hin as (d' & -> & Hin).
  apply list_elem_of_fmap_2. by apply removeById_sub in Hin.
Qed.

Lemma replaceById_ids o d' db :
  idOf d' = Some o -> map idOf (replaceById o d' db) = map idOf db.
Proof.
  intros Hid. induction db as [|d db IH]; simpl; [reflexivity|].
  destruct (hasId o d) eqn:E; simpl; [|by rewrite IH].
  apply hasId_true in E. by rewrite Hid, E.
Qed.

Lemma replaceById_find o d' db d :
  idOf d' = Some o -> List.find (hasId o) db = Some d ->
  List.find (hasId o) (replaceById o d' db) = Some d'.
Proof.
  intros Hid. apply hasId_true in Hid.
  induction db as [|x db IH]; simpl; [discriminate|].
  destruct (hasId o x) eqn:E; simpl; [by rewrite Hid | by rewrite E].
Qed.

Lemma replaceById_others o d' db d :
  d ∈ db -> idOf d <> Some o -> d ∈ replaceById o d' db.
Proof.
  intros Hin Hid. apply hasId_false in Hid.
  induction db as [|x db IH]; simpl; [done|].
  apply elem_of_cons in Hin as [->|Hin].
  - rewrite Hid. by left.
  - destruct (hasId o x); right; [done | by apply IH].
Qed.

Lemma filter_sublist {A} (f : A -> bool) (l : list A) : sublist (List.filter f l) l.
Proof.
  induction l as [|x l IH]; simpl; [constructor|].
  destruct (f x); by constructor.
Qed.

(** ** Listing *)

Section Listing.

Context `{Driver}.

Lemma eqb_bool_decide (a b : string) : String.eqb a b = bool_decide (a = b).
Proof.
  destruct (String.eqb_spec a b) as [->|Hne].
  - by rewrite bool_decide_eq_true_2.
  - by rewrite bool_decide_eq_false_2.
Qed.

Lemma matchesAvailable_spec (a : option string) (d : document) :
  matchesAvailable (match a with
                    | Some a => Some (String.eqb a "true")
                    | None => None
                    end) d = true
  <-> availabilitySelects a d.
Proof.
  destruct a as [a|]; simpl; [|tauto].
  rewrite eqb_bool_decide.
  destruct (d !! "isAvailable") as [[]|]; try (split; [discriminate|congruence]).
  rewrite Bool.eqb_true_iff. split; congruence.
Qed.

Lemma matchesType_spec (ty : option string) (d : document) :
  matchesType (match ty with
               | Some "" | None => None
               | Some t => Some t
               end) d = true
  <-> typeSelects ty d.
Proof.
  destruct ty as [[|c t]|]; simpl; [tauto| |tauto].
  destruct (d !! "type") as [[| | |t'| | | |]|];
    try (split; [discriminate | intros [|]; congruence]).
  pose proof (String.eqb_eq (String c t) t') as Heq.
  split; [intros E; right; apply Heq in E; congruence|].
  intros [|E]; [discriminate|]. apply Heq. congruence.
Qed.

Lemma get_rooms_text (a ty : option string) (db : collection) :
  get_rooms (textQuery a ty) db
  = {| status := 200;
       body := Rooms (List.filter
                        (fun d => matchesAvailable (match a with
                                                    | Some a => Some (String.eqb a "true")
                                                    | None => None
                                                    end) d
                                  && matchesType (match ty with
                                                  | Some "" | None => None
                                                  | Some t => Some t
                                                  end) d) db) |}.
Proof. by destruct a, ty as [[|c t]|]. Qed.

Lemma get_rooms_selects (a ty : option string) (db : collection) :
  exists rooms,
    get_rooms (textQuery a ty) db = {| status := 200; body := Rooms rooms |} /\
    sublist rooms db /\
    forall d, d ∈ rooms <-> d ∈ db /\ availabilitySelects a d /\ typeSelects ty d.
Proof.
  rewrite get_rooms_text. eexists. split; [reflexivity|].
  split; [apply filter_sublist|].
  intros d. rewrite list_elem_of_In, filter_In, <- list_elem_of_In.
  by rewrite andb_true_iff, matchesAvailable_spec, matchesType_spec.
Qed.

Lemma anyAvailability_spec (a : option param) (d : document) :
  matchesAvailable (match a with
                    | Some a => Some (strictEq a "true")
                    | None => None
                    end) d = true
  <-> anyAvailabilitySelects a d.
Proof.
  destruct a as [[a|items|props]|]; [apply (matchesAvailable_spec (Some a)) | | | by simpl];
    simpl; destruct (d !! "isAvailable") as [[| [|] | | | | | |]|];
    split; (discriminate || congruence || done).
Qed.

(** C4, as amended. A listing whose type parameter is absent or text answers
    200 with the stored rooms, each as it is stored and in storage order,
    that the availability parameter and a non-empty type select; an absent
    parameter and an empty type select every room, and an availability that
    is not text selects as the text [false] does; when nothing is selected
    the answer is the empty array, still with status 200. A type parameter
    that is an array or an object is handed to the store as the condition on
    [type]: the answer is 500 with the store's error when the store refuses
    the condition, and else 200 with the stored rooms, in storage order, that
    the availability parameter selects and that pass the test the store
    reads the condition as. *)
Theorem get_rooms_filter (q : reqQuery) (db : collection) :
  (forall ty, type q = PText <$> ty ->
     exists rooms,
       get_rooms q db = {| status := 200; body := Rooms rooms |} /\
       sublist rooms db /\
       (forall d, d ∈ rooms <->
                  d ∈ db /\ anyAvailabilitySelects (available q) d /\ typeSelects ty d) /\
       ((forall d, d ∈ db ->
                   ~ (anyAvailabilitySelects (available q) d /\ typeSelects ty d)) ->
        rooms = [])) /\
  (forall t, type q = Some t -> notText t ->
     match condition t with
     | inl error =>
         get_rooms q db = {| status := 500; body := Failure "Error retrieving rooms" error |}
     | inr test =>
         exists rooms,
           get_rooms q db = {| status := 200; body := Rooms rooms |} /\
           sublist rooms db /\
           forall d, d ∈ rooms <->
                     d ∈ db /\ anyAvailabilitySelects (available q) d /\ test d = true
     end).
Proof.
  destruct q as [a ty0]. cbn [available type]. split.
  - intros ty ->.
    assert (Hsel : exists rooms,
               get_rooms {| available := a; type := PText <$> ty |} db
                 = {| status := 200; body := Rooms rooms |} /\
               sublist rooms db /\
               forall d, d ∈ rooms <->
                         d ∈ db /\ anyAvailabilitySelects a d /\ typeSelects ty d).
    { exists (List.filter
                (fun d => matchesAvailable (match a with
                                            | Some a => Some (strictEq a "true")
                                            | None => None
                                            end) d
                          && matchesType (match ty with
                                          | Some "" | None => None
                                          | Some t => Some t
                                          end) d) db).
      split; [by destruct ty as [[|c t]|]|]. split; [apply filter_sublist|].
      intros d. rewrite list_elem_of_In, filter_In, <- list_elem_of_In.
      by rewrite andb_true_iff, anyAvailability_spec, matchesType_spec. }
    destruct Hsel as (rooms & Heq & Hsub & Hiff).
    exists rooms. repeat split; try done; try (by apply Hiff).
    intros Hnone. destruct rooms as [|d rooms]; [reflexivity|].
    exfalso. destruct (proj1 (Hiff d)) as [Hin Hsel]; [by left|].
    by apply (Hnone d).
  - intros t -> Ht. unfold get_rooms, find. cbn [available type q_isAvailable q_type].
    assert (Htruthy : truthy t = true) by (by destruct t).
    rewrite Htruthy.
    assert (Hcast : castType (Some t) = condition t) by (by destruct t).
    rewrite Hcast. destruct (condition t) as [error|test]; [reflexivity|].
    eexists. split; [reflexivity|]. split; [apply filter_sublist|].
    intros d. rewrite list_elem_of_In, filter_In, <- list_elem_of_In.
    by rewrite andb_true_iff, anyAvailability_spec.
Qed.


End Listing.

Section Handlers.

Context `{Driver}.

(** ** Get by identifier *)

(** C1, as amended: a request whose identifier is the text of a key answers
    404 with a message when no stored room carries the key and 200 with the
    room that carries it otherwise; a request whose identifier the store
    cannot cast to a key answers 500 with a message, not 404. *)
Theorem get_room_by_key (id : string) (db : collection) :
  (castId id = None ->
   get_room id db = {| status := 500; body := Failure "Error retrieving room" CastError |}) /\
  (forall o, castId id = Some (VOid o) ->
     Forall (fun d => idOf d <> Some o) db ->
     get_room id db = {| status := 404; body := Message "Room not found" |}) /\
  (forall o d, castId id = Some (VOid o) ->
     uniqueIds db -> d ∈ db -> idOf d = Some o ->
     get_room id db = {| status := 200; body := RoomDoc d |}).
Proof.
  unfold get_room, findById. repeat split.
  - by intros ->.
  - intros o -> Habs. apply find_hasId_None in Habs. by rewrite Habs.
  - intros o d -> Hu Hin Hid. by rewrite (find_hasId_unique o db d).
Qed.

(** ** Delete *)

(** C8, as amended: deleting by the key of a stored room answers 200 with a
    message and the room as it was stored, removes that room and no other, and
    a get by the same identifier then answers 404; deleting by a key that no
    stored room carries answers 404 and leaves the collection as it is; an
    identifier that the store cannot cast to a key is answered 500, not 404,
    and leaves the collection as it is. *)
Theorem delete_room_by_key (id : string) (db : collection) :
  (castId id = None ->
   delete_room id db
     = ({| status := 500; body := Failure "Error deleting room" CastError |}, db)) /\
  (forall o, castId id = Some (VOid o) -> uniqueIds db ->
     (forall d, d ∈ db -> idOf d = Some o ->
        exists db',
          delete_room id db
            = ({| status := 200; body := Deleted "Room deleted successfully" d |}, db') /\
          (d ∉ db') /\
          (forall d', d' ∈ db' <-> d' ∈ db /\ d' <> d) /\
          get_room id db' = {| status := 404; body := Message "Room not found" |}) /\
     (Forall (fun d => idOf d <> Some o) db ->
      delete_room id db = ({| status := 404; body := Message "Room not found" |}, db))).
Proof.
  unfold delete_room, findByIdAndDelete. split; [by intros ->|].
  intros o Hid Hu. rewrite Hid. split.
  - intros d Hin Hd. rewrite (find_hasId_unique o db d) by done.
    exists (removeById o db). split; [reflexivity|].
    pose proof (removeById_gone o db Hu) as Hgone.
    assert (Hnot : d ∉ removeById o db).
    { intros Hin'. rewrite Forall_forall in Hgone. by apply (Hgone d). }
    split; [done|]. split.
    + intros d'. split.
      * intros Hin'. split; [by apply removeById_sub in Hin' | by intros ->].
      * intros [Hin' Hne]. apply removeById_others; [done|].
        intros Hd'. apply Hne.
        pose proof (find_hasId_unique o db d' Hu Hin' Hd') as E1.
        pose proof (find_hasId_unique o db d Hu Hin Hd) as E2. congruence.
    + unfold get_room, findById. rewrite Hid.
      apply find_hasId_None in Hgone. by rewrite Hgone.
  - intros Habs. apply find_hasId_None in Habs. by rewrite Habs.
Qed.

(** ** Create *)

Lemma assoc_In {A} k (l : list (string * A)) a : assoc k l = Some a -> In (k, a) l.
Proof.
  induction l as [|[k' a'] l IH]; simpl; [discriminate|].
  destruct (String.eqb_spec k k') as [->|_]; [intros [= ->]; by left | right; by apply IH].
Qed.

Lemma schemaPath_In k sp : schemaPath k = Some sp -> In (k, sp) (roomSchema ++ storePaths).
Proof.
  unfold schemaPath. destruct (assoc k roomSchema) eqn:E.
  - intros [= <-]. apply in_or_app. left. by apply assoc_In.
  - intros E'. apply in_or_app. right. by apply assoc_In.
Qed.

Lemma In_schemaPath k sp : In (k, sp) (roomSchema ++ storePaths) -> schemaPath k = Some sp.
Proof.
  simpl. intros Hin.
  repeat (destruct Hin as [[= <- <-]|Hin]; [reflexivity|]). destruct Hin.
Qed.

Lemma castable_lookup (obj : document) k v :
  castable obj = true -> obj !! k = Some v -> castFails k v = false.
Proof.
  unfold castable. rewrite forallb_forall. intros Hall Hk.
  apply negb_true_iff. apply (Hall (k, v)).
  apply list_elem_of_In. by apply elem_of_map_to_list.
Qed.

Lemma not_castable (obj : document) k v :
  obj !! k = Some v -> castFails k v = true -> castable obj = false.
Proof.
  intros Hk Hf. destruct (castable obj) eqn:E; [|reflexivity].
  rewrite (castable_lookup obj k v E Hk) in Hf. discriminate.
Qed.

Lemma castable_intro (obj : document) :
  (forall k v, obj !! k = Some v -> castFails k v = false) -> castable obj = true.
Proof.
  intros Hall. unfold castable. apply forallb_forall. intros [k v] Hin.
  apply negb_true_iff. apply Hall.
  apply elem_of_map_to_list. by apply list_elem_of_In.
Qed.

Lemma casted_lookup (obj : document) k :
  casted obj !! k = match obj !! k with Some v => castPath k v | None => None end.
Proof. unfold casted. rewrite map_lookup_imap. by destruct (obj !! k). Qed.

Lemma defaults_eq oid :
  defaults oid =
  <["_id" := VOid oid]> (<["isAvailable" := VBool true]> (<["amenities" := VArr []]> ∅)).
Proof. reflexivity. Qed.

Lemma new_Room_lookup (obj : document) oid k :
  fields (new_Room obj oid) !! k =
  match casted obj !! k with
  | Some w => Some w
  | None => defaults oid !! k
  end.
Proof.
  simpl. destruct (casted obj !! k) as [w|] eqn:E.
  - by apply lookup_union_Some_l.
  - by rewrite lookup_union_r.
Qed.

Lemma conforms_field reqBody k sp :
  conforms reqBody = true -> In (k, sp) (roomSchema ++ storePaths) ->
  fieldConforms reqBody k sp = true.
Proof.
  unfold conforms. rewrite forallb_forall. intros Hall Hin. by apply (Hall (k, sp)).
Qed.

Lemma conforms_castable reqBody : conforms reqBody = true -> castable reqBody = true.
Proof.
  intros Hc. apply castable_intro. intros k v Hk. unfold castFails.
  destruct (schemaPath k) as [sp|] eqn:E; [|reflexivity].
  apply schemaPath_In, (conforms_field reqBody) in E; [|done].
  unfold fieldConforms in E. rewrite Hk in E.
  by destruct (cast (p_type sp) v).
Qed.

Lemma validate_path doc k sp :
  validate doc = true -> In (k, sp) roomSchema -> validPath sp (doc !! k) = true.
Proof.
  unfold validate. rewrite forallb_forall. intros Hall Hin. by apply (Hall (k, sp)).
Qed.

Lemma conforms_validate reqBody oid :
  conforms reqBody = true -> validate (fields (new_Room reqBody oid)) = true.
Proof.
  intros Hc. unfold validate. apply forallb_forall. intros [k sp] Hin.
  assert (Hf : fieldConforms reqBody k sp = true).
  { apply conforms_field; [done|]. apply in_or_app. by left. }
  assert (Hp : schemaPath k = Some sp).
  { apply In_schemaPath. apply in_or_app. by left. }
  cbn [fst snd]. rewrite new_Room_lookup, casted_lookup.
  unfold fieldConforms in Hf. unfold castPath. rewrite Hp.
  destruct (reqBody !! k) as [v|].
  - destruct (cast (p_type sp) v) as [w|]; [done | discriminate].
  - simpl in Hin.
    repeat (destruct Hin as [[= <- <-]|Hin]; [try discriminate Hf; reflexivity|]).
    destruct Hin.
Qed.

Lemma clashes_true (d other : document) :
  clashes d other = true <->
  exists s, d !! "roomNumber" = Some (VStr s) /\ other !! "roomNumber" = Some (VStr s).
Proof.
  unfold clashes, fieldStr; simpl. rewrite orb_false_r.
  destruct (d !! "roomNumber") as [[]|]; try (split; [discriminate | intros (? & [=] & _)]).
  destruct (other !! "roomNumber") as [[]|];
    try (split; [discriminate | intros (? & _ & [=])]).
  rewrite String.eqb_eq. split.
  - intros ->. by eexists.
  - intros (? & [= ->] & [= ->]). reflexivity.
Qed.

Lemma existsb_clashes_false (d : document) (db : collection) :
  (forall s, d !! "roomNumber" = Some (VStr s) ->
             Forall (fun other => other !! "roomNumber" <> Some (VStr s)) db) ->
  existsb (clashes d) db = false.
Proof.
  intros Hfree. destruct (existsb (clashes d) db) eqn:E; [|reflexivity].
  apply existsb_exists in E as (other & Hin & Hc).
  apply clashes_true in Hc as (s & Hd & Ho).
  specialize (Hfree s Hd). rewrite Forall_forall in Hfree.
  exfalso. apply (Hfree other); [by apply list_elem_of_In | done].
Qed.

Lemma insertOne_Resolved (d : document) (db db' : collection) :
  insertOne d db = Resolved db' ->
  db' = (db ++ [d])%list /\
  (exists o, idOf d = Some o /\ Forall (fun x => idOf x <> Some o) db) /\
  existsb (clashes d) db = false.
Proof.
  unfold insertOne. destruct (idOf d) as [o|]; [|discriminate].
  destruct (existsb (hasId o) db) eqn:E1; [discriminate|].
  destruct (existsb (clashes d) db) eqn:E2; [discriminate|].
  intros [= <-]. repeat split. exists o. split; [done|]. by apply existsb_hasId_false.
Qed.

Lemma storedDoc_lookup doc now k :
  k <> "__v" -> k <> "createdAt" -> k <> "updatedAt" ->
  storedDoc doc now !! k = fields doc !! k.
Proof.
  intros H1 H2 H3. unfold storedDoc, stampNew.
  by rewrite !lookup_insert_ne.
Qed.

Lemma storedDoc_stamps doc now :
  exists c, storedDoc doc now !! "createdAt" = Some c /\
            storedDoc doc now !! "updatedAt" = Some c /\
            c <> VNull /\
            (fields doc !! "createdAt" = None -> c = VDate now).
Proof.
  unfold storedDoc, stampNew.
  set (c := match fields doc !! "createdAt" with
            | None | Some VNull => VDate now
            | Some v => v
            end).
  exists c. split; [|split; [|split]].
  - rewrite lookup_insert_ne, lookup_insert_ne by done. apply lookup_insert_eq.
  - rewrite lookup_insert_ne by done. apply lookup_insert_eq.
  - subst c. by destruct (fields doc !! "createdAt") as [[]|].
  - subst c. by intros ->.
Qed.

Lemma save_Resolved doc now db room db' :
  save doc now db = (Resolved room, db') ->
  castError doc = false /\ validate (fields doc) = true /\
  room = storedDoc doc now /\ insertOne room db = Resolved db'.
Proof.
  unfold save. fold (storedDoc doc now).
  destruct (castError doc); [discriminate|].
  destruct (validate (fields doc)); [|discriminate]. simpl.
  destruct (insertOne (storedDoc doc now) db) eqn:E; [|discriminate].
  intros [= <- <-]. done.
Qed.

Lemma save_Rejected doc now db e db' :
  save doc now db = (Rejected e, db') -> db' = db.
Proof.
  unfold save.
  destruct (castError doc || negb (validate (fields doc))); [by intros [= _ <-]|].
  destruct (insertOne _ db); [discriminate | by intros [= _ <-]].
Qed.

Lemma new_Room_absent reqBody oid k :
  reqBody !! k = None -> fields (new_Room reqBody oid) !! k = defaults oid !! k.
Proof. intros Hk. by rewrite new_Room_lookup, casted_lookup, Hk. Qed.

Lemma new_Room_key reqBody oid :
  castable reqBody = true ->
  idOf (fields (new_Room reqBody oid)) = payloadKey reqBody oid.
Proof.
  intros Hc. unfold idOf, payloadKey.
  rewrite new_Room_lookup, casted_lookup.
  destruct (reqBody !! "_id") as [v|] eqn:E; [|reflexivity].
  apply (castable_lookup _ _ _ Hc) in E. unfold castFails in E.
  change (schemaPath "_id") with (Some (plain TObjectId)) in E.
  unfold castPath. change (schemaPath "_id") with (Some (plain TObjectId)).
  simpl in *. destruct (cast TObjectId v) as [w|]; [reflexivity | discriminate].
Qed.

Lemma new_Room_roomNumber reqBody oid s :
  fields (new_Room reqBody oid) !! "roomNumber" = Some (VStr s) ->
  payloadRoomNumber reqBody = Some s.
Proof.
  rewrite new_Room_lookup, casted_lookup. unfold payloadRoomNumber, castPath.
  destruct (reqBody !! "roomNumber") as [v|]; [|discriminate].
  change (schemaPath "roomNumber") with (assoc "roomNumber" roomSchema). simpl.
  destruct (cast TString v) as [w|]; [by intros [= ->] | discriminate].
Qed.

Lemma storedDoc_key doc now : idOf (storedDoc doc now) = idOf (fields doc).
Proof. unfold idOf. by rewrite storedDoc_lookup. Qed.

(** C2, as amended: a create request whose body conforms to the schema, whose
    room number no stored room has and whose key no stored room carries
    answers 201 with the created room, which is appended to the collection
    and has an identifier and both time stamps. The identifier is the one the
    store generates when the body has no [_id]; a body that has one chooses
    the identifier. *)
Theorem post_rooms_created reqBody oid now db key :
  supported reqBody = true ->
  conforms reqBody = true ->
  payloadKey reqBody oid = Some key ->
  Forall (fun d => idOf d <> Some key) db ->
  roomNumberFree reqBody db ->
  exists room,
    post_rooms reqBody oid now db
      = ({| status := 201; body := RoomDoc room |}, (db ++ [room])%list) /\
    idOf room = Some key /\
    (reqBody !! "_id" = None -> key = oid) /\
    exists c, room !! "createdAt" = Some c /\ room !! "updatedAt" = Some c /\
              c <> VNull /\ (reqBody !! "createdAt" = None -> c = VDate now).
Proof.
  intros _ Hconf Hkey Hfresh Hfree.
  pose proof (conforms_castable _ Hconf) as Hcast.
  pose proof (conforms_validate _ oid Hconf) as Hval.
  set (doc := new_Room reqBody oid) in *.
  exists (storedDoc doc now).
  assert (Hid : idOf (storedDoc doc now) = Some key).
  { rewrite storedDoc_key. subst doc. by rewrite new_Room_key. }
  split; [|split; [done|split]].
  - unfold post_rooms, save. fold doc. fold (storedDoc doc now).
    replace (castError doc) with false by (subst doc; simpl; by rewrite Hcast).
    rewrite Hval. simpl. unfold insertOne. rewrite Hid.
    apply existsb_hasId_false in Hfresh. rewrite Hfresh.
    rewrite existsb_clashes_false; [reflexivity|].
    intros s Hs. apply Hfree. rewrite storedDoc_lookup in Hs by done.
    by apply (new_Room_roomNumber _ oid).
  - intros Hno. unfold payloadKey in Hkey. rewrite Hno in Hkey. congruence.
  - destruct (storedDoc_stamps doc now) as (c & Hc & Hu & Hn & Hnow).
    exists c. repeat split; try done.
    intros Hno. apply Hnow. subst doc. by rewrite new_Room_absent.
Qed.

Lemma post_rooms_cases reqBody oid now db :
  (exists room db', save (new_Room reqBody oid) now db = (Resolved room, db') /\
     post_rooms reqBody oid now db = ({| status := 201; body := RoomDoc room |}, db')) \/
  (exists error,
     post_rooms reqBody oid now db
       = ({| status := 500; body := Failure "Error creating room" error |}, db)).
Proof.
  unfold post_rooms.
  destruct (save (new_Room reqBody oid) now db) as [[room|e] db'] eqn:E.
  - left. by exists room, db'.
  - right. exists e. by apply save_Rejected in E as ->.
Qed.

Lemma new_Room_text reqBody oid k sp t :
  In (k, sp) roomSchema -> p_type sp = TString -> reqBody !! k = Some (VStr t) ->
  fields (new_Room reqBody oid) !! k = Some (VStr t).
Proof.
  intros Hin Hty Hk. rewrite new_Room_lookup, casted_lookup, Hk. unfold castPath.
  rewrite (In_schemaPath k sp) by (apply in_or_app; by left).
  by rewrite Hty.
Qed.

Lemma existsb_eqb_false (t : string) (l : list string) :
  t ∉ l -> existsb (String.eqb t) l = false.
Proof.
  intros Hn. destruct (existsb (String.eqb t) l) eqn:E; [|reflexivity].
  apply existsb_exists in E as (x & Hin & Hx). apply String.eqb_eq in Hx as <-.
  exfalso. apply Hn. by apply list_elem_of_In.
Qed.

Lemma conforms_intro reqBody oid :
  castable reqBody = true -> validate (fields (new_Room reqBody oid)) = true ->
  conforms reqBody = true.
Proof.
  intros Hcast Hval. unfold conforms. apply forallb_forall. intros [k sp] Hin.
  cbn [fst snd]. unfold fieldConforms.
  pose proof (In_schemaPath k sp Hin) as Hp.
  destruct (reqBody !! k) as [v|] eqn:Hk.
  - pose proof (castable_lookup _ _ _ Hcast Hk) as Hf. unfold castFails in Hf.
    rewrite Hp in Hf. destruct (cast (p_type sp) v) as [w|] eqn:Hw; [|discriminate].
    apply in_app_or in Hin as [Hin|Hin].
    + pose proof (validate_path _ k sp Hval Hin) as Hv.
      rewrite new_Room_lookup, casted_lookup, Hk in Hv. unfold castPath in Hv.
      by rewrite Hp, Hw in Hv.
    + simpl in Hin. repeat (destruct Hin as [[= <- <-]|Hin]; [reflexivity|]). destruct Hin.
  - apply in_app_or in Hin as [Hin|Hin].
    + pose proof (validate_path _ k sp Hval Hin) as Hv.
      rewrite new_Room_absent in Hv by done. simpl in Hin.
      repeat (destruct Hin as [[= <- <-]|Hin]; [by try discriminate Hv|]). destruct Hin.
    + simpl in Hin. repeat (destruct Hin as [[= <- <-]|Hin]; [reflexivity|]). destruct Hin.
Qed.

(** C5: a create request whose body lacks a required field, or gives a value
    outside an enumeration, or a value that cannot be cast to the type of its
    path, or a room number that a stored room already has, or in any other way
    does not conform to the schema, answers 500 with a message, and the
    collection is left as it is. *)
Theorem post_rooms_rejected reqBody oid now db :
  missingRequired reqBody \/ violatesEnum reqBody \/ violatesType reqBody \/
  violatesUnique reqBody db \/ conforms reqBody = false ->
  exists error,
    post_rooms reqBody oid now db
      = ({| status := 500; body := Failure "Error creating room" error |}, db).
Proof.
  intros Hbad.
  destruct (post_rooms_cases reqBody oid now db) as [(room & db' & Hsave & _)|Hrej];
    [exfalso | done].
  apply save_Resolved in Hsave as (Hcast & Hval & -> & Hins).
  destruct Hbad as [(k & sp & Hin & Hreq & Hk)|[(k & sp & allowed & t & Hin & Hen & Hk & Hout)
    |[(k & v & Hk & Hf)|[(s & d & Hk & Hin & Hd)|Hnot]]]].
  - apply list_elem_of_In in Hin.
    pose proof (validate_path _ k sp Hval Hin) as Hp.
    rewrite new_Room_absent in Hp by done. simpl in Hin.
    repeat (destruct Hin as [[= <- <-]|Hin]; [discriminate|]). destruct Hin.
  - apply list_elem_of_In in Hin.
    pose proof (validate_path _ k sp Hval Hin) as Hp.
    assert (Hty : p_type sp = TString).
    { simpl in Hin.
      repeat (destruct Hin as [[= <- <-]|Hin]; [try discriminate Hen; reflexivity|]).
      destruct Hin. }
    rewrite (new_Room_text _ _ _ _ _ Hin Hty Hk) in Hp.
    unfold validPath in Hp. rewrite Hen in Hp. apply andb_true_iff in Hp as [_ Hp].
    simpl in Hp. by rewrite existsb_eqb_false in Hp.
  - simpl in Hcast. by rewrite (not_castable _ _ _ Hk Hf) in Hcast.
  - apply insertOne_Resolved in Hins as (_ & _ & Hno).
    assert (Hyes : existsb (clashes (storedDoc (new_Room reqBody oid) now)) db = true).
    { apply existsb_exists. exists d. split; [by apply list_elem_of_In|].
      apply clashes_true. exists s. split; [|done].
      rewrite storedDoc_lookup by done.
      eapply (new_Room_text _ _ "roomNumber"); [by left | reflexivity | done]. }
    congruence.
  - simpl in Hcast. apply negb_false_iff in Hcast.
    by rewrite (conforms_intro _ oid Hcast Hval) in Hnot.
Qed.

Lemma find_app_absent o (db : collection) d :
  Forall (fun x => idOf x <> Some o) db -> idOf d = Some o ->
  List.find (hasId o) (db ++ [d]) = Some d.
Proof.
  intros Habs Hid. induction Habs as [|x db Hx _ IH]; simpl.
  - apply hasId_true in Hid. by rewrite Hid.
  - apply hasId_false in Hx. by rewrite Hx.
Qed.

Lemma schemaPath_None_ne k k' :
  schemaPath k = None -> is_Some (schemaPath k') -> k <> k'.
Proof. intros Hk [sp Hk'] ->. congruence. Qed.

Lemma new_Room_unknown reqBody oid k :
  schemaPath k = None -> fields (new_Room reqBody oid) !! k = None.
Proof.
  intros Hk. rewrite new_Room_lookup, casted_lookup. unfold castPath. rewrite Hk.
  assert (defaults oid !! k = None) as ->.
  { rewrite defaults_eq.
    rewrite !lookup_insert_ne by (apply not_eq_sym, (schemaPath_None_ne _ _ Hk); by eexists).
    apply lookup_empty. }
  by destruct (reqBody !! k).
Qed.

Lemma new_Room_typed reqBody oid k sp v :
  In (k, sp) roomSchema -> reqBody !! k = Some v -> has_type (p_type sp) v = true ->
  fields (new_Room reqBody oid) !! k = Some v.
Proof.
  intros Hin Hk Hty. rewrite new_Room_lookup, casted_lookup, Hk. unfold castPath.
  rewrite (In_schemaPath k sp) by (apply in_or_app; by left).
  unfold cast. rewrite Hty. by destruct v.
Qed.

(** C3, as amended: after a successful create, a get by the identifier of the
    created room answers 200 with that room, as it was returned by the
    create. The room has every field of the schema that the body gave with a
    value of the declared type, with that value; [isAvailable] is true and
    [amenities] is empty when the body did not give them; a field of the body
    that is not a path of the schema is not stored. (A value of another type
    is stored as the store converts it.) *)
Theorem created_room_read_back reqBody oid now db resp db' :
  supported reqBody = true ->
  post_rooms reqBody oid now db = (resp, db') ->
  status resp = 201 ->
  exists room key,
    body resp = RoomDoc room /\ idOf room = Some key /\
    (forall id, castId id = Some (VOid key) ->
                get_room id db' = {| status := 200; body := RoomDoc room |}) /\
    (forall k sp v, (k, sp) ∈ roomSchema -> reqBody !! k = Some v ->
                    has_type (p_type sp) v = true -> room !! k = Some v) /\
    (reqBody !! "isAvailable" = None -> room !! "isAvailable" = Some (VBool true)) /\
    (reqBody !! "amenities" = None -> room !! "amenities" = Some (VArr [])) /\
    (forall k, schemaPath k = None -> room !! k = None).
Proof.
  intros _ Hpost Hst.
  destruct (post_rooms_cases reqBody oid now db)
    as [(room & db1 & Hsave & Heq)|(e & Heq)]; rewrite Heq in Hpost;
    injection Hpost as <- <-; [|discriminate].
  apply save_Resolved in Hsave as (Hcast & Hval & -> & Hins).
  apply insertOne_Resolved in Hins as (-> & (key & Hkey & Hfresh) & _).
  set (doc := new_Room reqBody oid) in *.
  exists (storedDoc doc now), key. split; [reflexivity|]. split; [done|].
  split; [|split; [|split; [|split]]].
  - intros id Hid. unfold get_room, findById. rewrite Hid.
    by rewrite find_app_absent.
  - intros k sp v Hin Hk Hty. apply list_elem_of_In in Hin.
    rewrite storedDoc_lookup.
    + by apply (new_Room_typed _ _ _ sp).
    + intros ->. simpl in Hin. repeat (destruct Hin as [[=]|Hin]). destruct Hin.
    + intros ->. simpl in Hin. repeat (destruct Hin as [[=]|Hin]). destruct Hin.
    + intros ->. simpl in Hin. repeat (destruct Hin as [[=]|Hin]). destruct Hin.
  - intros Hno. rewrite storedDoc_lookup by done. subst doc.
    by rewrite new_Room_absent.
  - intros Hno. rewrite storedDoc_lookup by done. subst doc.
    by rewrite new_Room_absent.
  - intros k Hk. rewrite storedDoc_lookup;
      [by apply new_Room_unknown | | | ];
      apply (schemaPath_None_ne _ _ Hk); by eexists.
Qed.

(** ** Update *)

Lemma update_lookup now (update : document) k :
  k <> "updatedAt" -> k <> "createdAt" ->
  applyTimestampsToUpdate now update !! k = update !! k.
Proof.
  intros H1 H2. unfold applyTimestampsToUpdate.
  by rewrite lookup_insert_ne, lookup_delete_ne.
Qed.

Lemma update_lookup_absent now (update : document) k :
  k <> "updatedAt" -> update !! k = None ->
  applyTimestampsToUpdate now update !! k = None.
Proof.
  intros H1 Hk. unfold applyTimestampsToUpdate. rewrite lookup_insert_ne by done.
  destruct (decide (k = "createdAt")) as [->|Hne].
  - apply lookup_delete_eq.
  - by rewrite lookup_delete_ne.
Qed.

Lemma casted_update_absent now (update : document) k :
  k <> "updatedAt" -> update !! k = None ->
  casted (applyTimestampsToUpdate now update) !! k = None.
Proof.
  intros H1 Hk. by rewrite casted_lookup, update_lookup_absent.
Qed.

Lemma casted_update_stamp now (update : document) :
  casted (applyTimestampsToUpdate now update) !! "updatedAt" = Some (VDate now).
Proof.
  rewrite casted_lookup. unfold applyTimestampsToUpdate. by rewrite lookup_insert_eq.
Qed.

Lemma updateConforms_field update k sp :
  updateConforms update = true -> In (k, sp) (roomSchema ++ keyPaths) ->
  updateFieldConforms update k sp = true.
Proof.
  unfold updateConforms. rewrite forallb_forall. intros Hall Hin. by apply (Hall (k, sp)).
Qed.

Lemma updateConforms_castable now update :
  updateConforms update = true -> castable (applyTimestampsToUpdate now update) = true.
Proof.
  intros Hc. apply castable_intro. intros k v Hk. unfold castFails.
  destruct (schemaPath k) as [sp|] eqn:E; [|reflexivity].
  destruct (decide (k = "updatedAt")) as [->|H1].
  { unfold applyTimestampsToUpdate in Hk. rewrite lookup_insert_eq in Hk.
    injection Hk as <-. by injection E as <-. }
  destruct (decide (k = "createdAt")) as [->|H2].
  { unfold applyTimestampsToUpdate in Hk.
    by rewrite lookup_insert_ne, lookup_delete_eq in Hk. }
  rewrite update_lookup in Hk by done.
  assert (Hin : In (k, sp) (roomSchema ++ keyPaths)).
  { apply schemaPath_In in E. simpl in E. simpl.
    repeat (destruct E as [E|E]; [tauto || (injection E as <- _; congruence)|]).
    destruct E. }
  apply (updateConforms_field _ _ _ Hc) in Hin. unfold updateFieldConforms in Hin.
  rewrite Hk in Hin. by destruct (cast (p_type sp) v).
Qed.

Lemma updateConforms_validate now update :
  updateConforms update = true ->
  validateUpdate (casted (applyTimestampsToUpdate now update)) = true.
Proof.
  intros Hc. unfold validateUpdate. apply forallb_forall. intros [k sp] Hin.
  cbn [fst snd].
  assert (Hf : updateFieldConforms update k sp = true).
  { apply updateConforms_field; [done|]. apply in_or_app. by left. }
  assert (Hp : schemaPath k = Some sp).
  { apply In_schemaPath. apply in_or_app. by left. }
  rewrite casted_lookup, update_lookup.
  - unfold updateFieldConforms in Hf. unfold castPath. rewrite Hp.
    destruct (update !! k) as [v|]; [|reflexivity].
    destruct (cast (p_type sp) v) as [w|]; [done | discriminate].
  - intros ->. simpl in Hin. repeat (destruct Hin as [[=]|Hin]). destruct Hin.
  - intros ->. simpl in Hin. repeat (destruct Hin as [[=]|Hin]). destruct Hin.
Qed.

Lemma replaceById_elem o d' (db : collection) d :
  List.find (hasId o) db = Some d -> d' ∈ replaceById o d' db.
Proof.
  induction db as [|x db IH]; simpl; [discriminate|].
  destruct (hasId o x); [intros _; by left | intros Hf; right; by apply IH].
Qed.

Lemma updated_key o (upd d : document) :
  changesId o upd = false -> idOf d = Some o -> idOf (upd ∪ d) = Some o.
Proof.
  unfold changesId, idOf. intros Hch Hid.
  destruct (upd !! "_id") as [v|] eqn:E.
  - rewrite (lookup_union_Some_l _ _ _ _ E).
    destruct v; try discriminate. apply negb_false_iff, N.eqb_eq in Hch. by subst.
  - by rewrite lookup_union_r.
Qed.

Lemma findOneAndUpdate_Resolved o upd db room db' :
  findOneAndUpdate o upd db = (Resolved (Some room), db') ->
  exists d, List.find (hasId o) db = Some d /\ changesId o upd = false /\
            room = upd ∪ d /\ db' = replaceById o room db.
Proof.
  unfold findOneAndUpdate. destruct (List.find (hasId o) db) as [d|]; [|discriminate].
  destruct (changesId o upd); [discriminate|].
  destruct (existsb _ db); [discriminate|].
  intros [= <- <-]. by exists d.
Qed.

Lemma findOneAndUpdate_other o upd db r db' :
  findOneAndUpdate o upd db = (r, db') ->
  (forall room, r <> Resolved (Some room)) -> db' = db.
Proof.
  unfold findOneAndUpdate. destruct (List.find (hasId o) db) as [d|]; [|by intros [= _ <-]].
  destruct (changesId o upd); [by intros [= _ <-]|].
  destruct (existsb _ db); [by intros [= _ <-]|].
  intros [= <- _] Hne. by destruct (Hne (upd ∪ d)).
Qed.

Lemma findByIdAndUpdate_Resolved id update now db room db' :
  findByIdAndUpdate id update now db = (Resolved (Some room), db') ->
  exists o d,
    castId id = Some (VOid o) /\ List.find (hasId o) db = Some d /\
    changesId o (casted (applyTimestampsToUpdate now update)) = false /\
    room = casted (applyTimestampsToUpdate now update) ∪ d /\
    db' = replaceById o room db.
Proof.
  unfold findByIdAndUpdate. destruct (castId id) as [k|]; [|discriminate].
  destruct (castable _); [|discriminate]. destruct (validateUpdate _); [|discriminate].
  simpl. destruct k; try discriminate.
  intros Hf. apply findOneAndUpdate_Resolved in Hf as (d & ? & ? & ? & ?).
  by exists o, d.
Qed.

Lemma findByIdAndUpdate_other id update now db r db' :
  findByIdAndUpdate id update now db = (r, db') ->
  (forall room, r <> Resolved (Some room)) -> db' = db.
Proof.
  unfold findByIdAndUpdate. destruct (castId id) as [k|]; [|by intros [= _ <-]].
  destruct (castable _); [|by intros [= _ <-]].
  destruct (validateUpdate _); [|by intros [= _ <-]].
  simpl. destruct k; try (by intros [= _ <-]). apply findOneAndUpdate_other.
Qed.

Lemma put_room_cases id update now db :
  (exists room db',
     findByIdAndUpdate id update now db = (Resolved (Some room), db') /\
     put_room id update now db = ({| status := 200; body := RoomDoc room |}, db')) \/
  (exists resp, put_room id update now db = (resp, db) /\ status resp <> 200).
Proof.
  unfold put_room.
  destruct (findByIdAndUpdate id update now db) as [[[room|]|e] db'] eqn:E.
  - left. by exists room, db'.
  - right. apply findByIdAndUpdate_other in E as ->; [|done]. by eexists.
  - right. apply findByIdAndUpdate_other in E as ->; [|done]. by eexists.
Qed.

Lemma casted_update_roomNumber now update s :
  casted (applyTimestampsToUpdate now update) !! "roomNumber" = Some (VStr s) ->
  payloadRoomNumber update = Some s.
Proof.
  rewrite casted_lookup, update_lookup by done. unfold payloadRoomNumber, castPath.
  destruct (update !! "roomNumber") as [v|]; [|discriminate].
  change (schemaPath "roomNumber") with (assoc "roomNumber" roomSchema). simpl.
  destruct (cast TString v) as [w|]; [by intros [= ->] | discriminate].
Qed.

Lemma casted_update_key now update o :
  keepsKey o update -> changesId o (casted (applyTimestampsToUpdate now update)) = false.
Proof.
  intros Hk. unfold changesId. rewrite casted_lookup, update_lookup by done.
  destruct (update !! "_id") as [v|] eqn:E; [|reflexivity].
  unfold castPath. change (schemaPath "_id") with (Some (plain TObjectId)). simpl.
  rewrite (Hk v E). by rewrite N.eqb_refl.
Qed.

Lemma casted_update_typed now update k sp v :
  In (k, sp) roomSchema -> update !! k = Some v -> has_type (p_type sp) v = true ->
  casted (applyTimestampsToUpdate now update) !! k = Some v.
Proof.
  intros Hin Hk Hty. rewrite casted_lookup, update_lookup, Hk.
  - unfold castPath. rewrite (In_schemaPath k sp) by (apply in_or_app; by left).
    unfold cast. rewrite Hty. by destruct v.
  - intros ->. simpl in Hin. repeat (destruct Hin as [[=]|Hin]). destruct Hin.
  - intros ->. simpl in Hin. repeat (destruct Hin as [[=]|Hin]). destruct Hin.
Qed.

Lemma updateConforms_intro now update :
  castable (applyTimestampsToUpdate now update) = true ->
  validateUpdate (casted (applyTimestampsToUpdate now update)) = true ->
  updateConforms update = true.
Proof.
  intros Hcast Hval. unfold updateConforms. apply forallb_forall. intros [k sp] Hin.
  cbn [fst snd]. unfold updateFieldConforms.
  destruct (update !! k) as [v|] eqn:Hk; [|reflexivity].
  assert (Hne : k <> "updatedAt" /\ k <> "createdAt").
  { split; intros ->; simpl in Hin; repeat (destruct Hin as [[=]|Hin]); destruct Hin. }
  destruct Hne as [H1 H2].
  assert (Hp : schemaPath k = Some sp).
  { apply In_schemaPath. apply in_app_or in Hin as [Hin|Hin]; apply in_or_app;
      [by left | right; apply in_or_app; by left]. }
  assert (Hu : applyTimestampsToUpdate now update !! k = Some v)
    by (by rewrite update_lookup).
  pose proof (castable_lookup _ _ _ Hcast Hu) as Hf. unfold castFails in Hf.
  rewrite Hp in Hf. destruct (cast (p_type sp) v) as [w|] eqn:Hw; [|discriminate].
  apply in_app_or in Hin as [Hin|Hin].
  - unfold validateUpdate in Hval. rewrite forallb_forall in Hval.
    specialize (Hval (k, sp) Hin). cbn [fst snd] in Hval.
    rewrite casted_lookup, Hu in Hval. unfold castPath in Hval.
    by rewrite Hp, Hw in Hval.
  - simpl in Hin. repeat (destruct Hin as [[= <- <-]|Hin]; [reflexivity|]). destruct Hin.
Qed.

(** C6, as amended: an update whose identifier is the text of a key and whose
    body of fields satisfies the constraints of the schema on the paths it
    names answers 404 and changes nothing when no stored room carries the key;
    when a stored room carries it (and the body neither asks for another key
    nor for the room number of another room) it answers 200 with the room
    after the update, which is the room then stored under the key, holding the
    values of the body on the paths it names. A body that breaks a constraint
    on a path it names is answered 500 whether or not a room carries the key,
    and so is an identifier that the store cannot cast to a key. *)
Theorem put_room_by_key id update now db :
  supported update = true ->
  (castId id = None ->
   put_room id update now db
     = ({| status := 500; body := Failure "Error updating room" CastError |}, db)) /\
  (forall o, castId id = Some (VOid o) ->
     (updateConforms update = false ->
      exists error,
        put_room id update now db
          = ({| status := 500; body := Failure "Error updating room" error |}, db)) /\
     (updateConforms update = true ->
      Forall (fun d => idOf d <> Some o) db ->
      put_room id update now db
        = ({| status := 404; body := Message "Room not found" |}, db)) /\
     (updateConforms update = true ->
      forall d, d ∈ db -> idOf d = Some o ->
        keepsKey o update -> roomNumberFreeFor o update db ->
        exists room db',
          put_room id update now db = ({| status := 200; body := RoomDoc room |}, db') /\
          idOf room = Some o /\
          get_room id db' = {| status := 200; body := RoomDoc room |} /\
          (forall k sp v, (k, sp) ∈ roomSchema -> update !! k = Some v ->
                          has_type (p_type sp) v = true -> room !! k = Some v))).
Proof.
  intros _. split.
  { intros Hid. unfold put_room, findByIdAndUpdate. by rewrite Hid. }
  intros o Hid. split; [|split].
  - intros Hbad. unfold put_room, findByIdAndUpdate. rewrite Hid.
    destruct (castable (applyTimestampsToUpdate now update)) eqn:Hcast; simpl;
      [|by eexists].
    destruct (validateUpdate (casted (applyTimestampsToUpdate now update))) eqn:Hval;
      simpl; [|by eexists].
    rewrite (updateConforms_intro now update Hcast Hval) in Hbad. discriminate.
  - intros Hconf Habs.
    pose proof (updateConforms_castable now _ Hconf) as Hcast.
    pose proof (updateConforms_validate now _ Hconf) as Hval.
    unfold put_room, findByIdAndUpdate. rewrite Hid, Hcast, Hval. simpl.
    unfold findOneAndUpdate. apply find_hasId_None in Habs. by rewrite Habs.
  - intros Hconf d Hin Hd Hkeep Hfree.
    pose proof (updateConforms_castable now _ Hconf) as Hcast.
    pose proof (updateConforms_validate now _ Hconf) as Hval.
    unfold put_room, findByIdAndUpdate. rewrite Hid, Hcast, Hval. simpl.
    unfold findOneAndUpdate.
    destruct (List.find (hasId o) db) as [d0|] eqn:Hfind.
    2:{ apply find_hasId_None in Hfind. rewrite Forall_forall in Hfind.
        by destruct (Hfind d Hin). }
    set (upd := casted (applyTimestampsToUpdate now update)).
    pose proof (casted_update_key now update o Hkeep) as Hch. fold upd in Hch.
    rewrite Hch.
    assert (Hno : existsb (fun other => negb (hasId o other) && clashes upd other) db
                  = false).
    { destruct (existsb _ db) eqn:E; [|reflexivity].
      apply existsb_exists in E as (other & Hother & Hc).
      apply andb_true_iff in Hc as [Hne Hc].
      apply negb_true_iff, hasId_false in Hne.
      apply clashes_true in Hc as (s & Hs & Ho).
      apply casted_update_roomNumber, Hfree in Hs. rewrite Forall_forall in Hs.
      exfalso. apply (Hs other); [by apply list_elem_of_In | done | done]. }
    rewrite Hno. apply find_hasId_Some in Hfind as Hd0. destruct Hd0 as [_ Hd0].
    pose proof (updated_key o upd d0 Hch Hd0) as Hkey.
    exists (upd ∪ d0), (replaceById o (upd ∪ d0) db).
    split; [reflexivity|]. split; [done|]. split.
    + unfold get_room, findById. rewrite Hid.
      by rewrite (replaceById_find o _ db d0).
    + intros k sp v Hk Hv Hty. apply list_elem_of_In in Hk.
      apply lookup_union_Some_l. by apply (casted_update_typed _ _ _ sp).
Qed.

(** C7, as amended: after a successful update with a body of fields, every
    field of the room that the body does not name keeps the value it had,
    except [updatedAt], which takes the time of the update; the other rooms
    stay in the collection as they are. *)
Theorem put_room_frame id update now db room db' :
  supported update = true ->
  put_room id update now db = ({| status := 200; body := RoomDoc room |}, db') ->
  exists o d,
    castId id = Some (VOid o) /\ d ∈ db /\ idOf d = Some o /\
    room ∈ db' /\ idOf room = Some o /\
    (forall k, update !! k = None -> k <> "updatedAt" -> room !! k = d !! k) /\
    room !! "updatedAt" = Some (VDate now) /\
    (forall d', d' ∈ db -> idOf d' <> Some o -> d' ∈ db').
Proof.
  intros _ Hput.
  destruct (put_room_cases id update now db)
    as [(room1 & db1 & Hfind & Heq)|(resp & Heq & Hst)]; rewrite Heq in Hput.
  2:{ injection Hput as -> _. by destruct Hst. }
  injection Hput as <- <-.
  apply findByIdAndUpdate_Resolved in Hfind as (o & d & Hid & Hd & Hch & -> & ->).
  set (upd := casted (applyTimestampsToUpdate now update)) in *.
  apply find_hasId_Some in Hd as Hd'. destruct Hd' as [Hin Hkey].
  exists o, d. repeat split; try done.
  - by apply (replaceById_elem o _ db d).
  - by apply updated_key.
  - intros k Hk Hne. rewrite lookup_union_r; [done|].
    by apply casted_update_absent.
  - apply lookup_union_Some_l. apply casted_update_stamp.
  - intros d' Hd' Hne. by apply replaceById_others.
Qed.

(** ** Identifiers *)

Lemma uniqueIds_snoc db room key :
  uniqueIds db -> idOf room = Some key -> Forall (fun d => idOf d <> Some key) db ->
  uniqueIds (db ++ [room]).
Proof.
  unfold uniqueIds. intros Hu Hk Hfresh. rewrite map_app. apply NoDup_app.
  split; [done|]. split; [|apply NoDup_singleton].
  intros x Hx Hx'. apply list_elem_of_singleton in Hx'. subst x. simpl in Hx.
  apply list_elem_of_fmap in Hx as (d & Hd & Hin). rewrite Forall_forall in Hfresh.
  apply (Hfresh d Hin). congruence.
Qed.

Lemma post_rooms_appends reqBody oid now db resp db' :
  post_rooms reqBody oid now db = (resp, db') ->
  (db' = db /\ status resp = 500) \/
  exists room key,
    resp = {| status := 201; body := RoomDoc room |} /\ db' = (db ++ [room])%list /\
    idOf room = Some key /\ payloadKey reqBody oid = Some key /\
    Forall (fun d => idOf d <> Some key) db.
Proof.
  intros Hpost.
  destruct (post_rooms_cases reqBody oid now db)
    as [(room & db1 & Hsave & Heq)|(e & Heq)]; rewrite Heq in Hpost;
    injection Hpost as <- <-; [|by left].
  apply save_Resolved in Hsave as (Hcast & Hval & -> & Hins).
  apply insertOne_Resolved in Hins as (-> & (key & Hkey & Hfresh) & _).
  right. eexists _, key. repeat split; try done.
  rewrite <- new_Room_key, <- (storedDoc_key _ now); [done|].
  simpl in Hcast. by apply negb_false_iff in Hcast.
Qed.

Lemma post_rooms_uniqueIds reqBody oid now db :
  uniqueIds db -> uniqueIds (snd (post_rooms reqBody oid now db)).
Proof.
  intros Hu. destruct (post_rooms reqBody oid now db) as [resp db'] eqn:E.
  apply post_rooms_appends in E as [[-> _]|(room & key & _ & -> & Hk & _ & Hf)]; [done|].
  by apply (uniqueIds_snoc _ _ key).
Qed.

Lemma put_room_ids id update now db :
  map idOf (snd (put_room id update now db)) = map idOf db.
Proof.
  destruct (put_room_cases id update now db)
    as [(room & db1 & Hfind & ->)|(resp1 & -> & _)]; [|done].
  apply findByIdAndUpdate_Resolved in Hfind as (o & d & Hid & Hd & Hch & -> & ->).
  apply find_hasId_Some in Hd as [_ Hkey]. simpl.
  apply replaceById_ids. by apply updated_key.
Qed.

Lemma delete_room_uniqueIds id db :
  uniqueIds db -> uniqueIds (snd (delete_room id db)).
Proof.
  intros Hu. unfold delete_room, findByIdAndDelete.
  destruct (castId id) as [[]|]; try done.
  destruct (List.find (hasId o) db); [|done]. by apply removeById_unique.
Qed.

(** Every collection that the service reaches has unique identifiers. *)
Lemma reachable_uniqueIds db : reachable db -> uniqueIds db.
Proof.
  induction 1 as [|r db _ IH]; [apply NoDup_nil_2|].
  destruct r; simpl; try done.
  - by apply post_rooms_uniqueIds.
  - unfold uniqueIds. by rewrite put_room_ids.
  - by apply delete_room_uniqueIds.
Qed.

(** C9, as amended: the identifier of a room is fixed when the room is
    created: it is the [_id] of the request body when the body has one, and
    the key that the store generates otherwise. It does not change afterwards:
    a create leaves the stored rooms as they are and an update keeps the
    identifier of every stored room. Identifiers stay unique across the
    collection through create, update and delete. *)
Theorem identifiers_kept reqBody update id id' oid now db :
  supported reqBody = true -> supported update = true ->
  uniqueIds db ->
  (forall resp db', post_rooms reqBody oid now db = (resp, db') ->
     uniqueIds db' /\
     (db' = db \/
      exists room key,
        resp = {| status := 201; body := RoomDoc room |} /\ db' = (db ++ [room])%list /\
        idOf room = Some key /\ payloadKey reqBody oid = Some key /\
        (reqBody !! "_id" = None -> key = oid))) /\
  (forall resp db', put_room id update now db = (resp, db') ->
     uniqueIds db' /\ map idOf db' = map idOf db) /\
  (forall resp db', delete_room id' db = (resp, db') -> uniqueIds db').
Proof.
  intros _ _ Hu. split; [|split].
  - intros resp db' Hpost. split.
    + change db' with (snd (resp, db')). rewrite <- Hpost. by apply post_rooms_uniqueIds.
    + apply post_rooms_appends in Hpost as [[-> _]|(room & key & -> & -> & Hk & Hpk & _)];
        [by left | right].
      exists room, key. repeat split; try done.
      intros Hno. unfold payloadKey in Hpk. rewrite Hno in Hpk. congruence.
  - intros resp db' Hput.
    pose proof (put_room_ids id update now db) as Hids. rewrite Hput in Hids.
    simpl in Hids. split; [|done]. unfold uniqueIds. by rewrite Hids.
  - intros resp db' Hdel. change db' with (snd (resp, db')). rewrite <- Hdel.
    by apply delete_room_uniqueIds.
Qed.

End Handlers.


(** * Further properties of the service *)

Section Compositions.

Context `{Driver}.

(** ** Answers and effects of the routes *)

Lemma delete_room_cases id db :
  (exists room o,
     castId id = Some (VOid o) /\ List.find (hasId o) db = Some room /\
     delete_room id db
       = ({| status := 200; body := Deleted "Room deleted successfully" room |},
          removeById o db)) \/
  (delete_room id db = ({| status := 404; body := Message "Room not found" |}, db)) \/
  (exists error,
     delete_room id db = ({| status := 500; body := Failure "Error deleting room" error |}, db)).
Proof.
  unfold delete_room, findByIdAndDelete.
  destruct (castId id) as [[]|]; try (right; left; reflexivity);
    [|right; right; by eexists].
  destruct (List.find (hasId o) db) as [room|] eqn:E; [|right; left; reflexivity].
  left. by exists room, o.
Qed.

Lemma put_room_answers id update now db :
  (exists room db',
     findByIdAndUpdate id update now db = (Resolved (Some room), db') /\
     put_room id update now db = ({| status := 200; body := RoomDoc room |}, db')) \/
  (put_room id update now db = ({| status := 404; body := Message "Room not found" |}, db)) \/
  (exists error,
     put_room id update now db
       = ({| status := 500; body := Failure "Error updating room" error |}, db)).
Proof.
  unfold put_room.
  destruct (findByIdAndUpdate id update now db) as [[[room|]|e] db'] eqn:E.
  - left. by exists room, db'.
  - right. left. by apply findByIdAndUpdate_other in E as ->.
  - right. right. exists e. by apply findByIdAndUpdate_other in E as ->.
Qed.

(** An answer that is not a success is 404 with the message [Room not found]
    or 500 with a message and the error, and leaves the collection as it was:
    no route writes anything and then reports a failure. *)
Theorem app_failure_unchanged (r : request) (db : collection) :
  status (fst (app r db)) <> 200 -> status (fst (app r db)) <> 201 ->
  snd (app r db) = db /\
  (fst (app r db) = {| status := 404; body := Message "Room not found" |} \/
   exists message error, fst (app r db) = {| status := 500; body := Failure message error |}).
Proof.
  destruct r as [q|id|reqBody oid now|id reqBody now|id]; simpl.
  - unfold get_rooms. destruct (find _ db) as [rooms|e]; simpl; intros H200 _;
      [by destruct H200 | split; [done|right; by eexists _, _] ].
  - unfold get_room. destruct (findById id db) as [[room|]|e]; simpl; intros H200 _;
      [by destruct H200 | by split; [|left] | split; [done|right; by eexists _, _] ].
  - destruct (post_rooms_cases reqBody oid now db)
      as [(room & db' & _ & ->)|(e & ->)]; simpl; intros _ H201;
      [by destruct H201 | split; [done|right; by eexists _, _] ].
  - destruct (put_room_answers id reqBody now db)
      as [(room & db' & _ & ->)|[->|(e & ->)]]; simpl; intros H200 _;
      [by destruct H200 | by split; [|left] | split; [done|right; by eexists _, _] ].
  - destruct (delete_room_cases id db)
      as [(room & o & _ & _ & ->)|[->|(e & ->)]]; simpl; intros H200 _;
      [by destruct H200 | by split; [|left] | split; [done|right; by eexists _, _] ].
Qed.

(** The size of the collection: a create that answers 201 adds one room, a
    delete that answers 200 removes one, and every other request, an update
    among them, leaves the number of rooms as it was. *)
Theorem app_size (r : request) (db : collection) :
  length (snd (app r db)) =
  match r, status (fst (app r db)) with
  | POST_rooms _ _ _, 201 => S (length db)
  | DELETE_room _, 200 => pred (length db)
  | _, _ => length db
  end.
Proof.
  destruct r as [q|id|reqBody oid now|id reqBody now|id]; simpl.
  - by destruct (status (get_rooms q db)) as [|[|]].
  - reflexivity.
  - destruct (post_rooms_cases reqBody oid now db)
      as [(room & db' & Hsave & ->)|(e & ->)]; simpl; [|reflexivity].
    apply save_Resolved in Hsave as (_ & _ & _ & Hins).
    apply insertOne_Resolved in Hins as (-> & _ & _).
    rewrite length_app. simpl. lia.
  - destruct (put_room_answers id reqBody now db)
      as [(room & db' & Hfind & ->)|[->|(e & ->)]]; simpl; try reflexivity.
    apply findByIdAndUpdate_Resolved in Hfind as (o & d & _ & _ & _ & _ & ->).
    clear. induction db as [|x db IH]; simpl; [reflexivity|].
    destruct (hasId o x); simpl; [reflexivity | by rewrite IH].
  - destruct (delete_room_cases id db)
      as [(room & o & _ & Hfind & ->)|[->|(e & ->)]]; simpl; try reflexivity.
    clear -Hfind. induction db as [|x db IH]; simpl in *; [discriminate|].
    destruct (hasId o x); simpl; [reflexivity|].
    rewrite (IH Hfind). destruct db; [discriminate | reflexivity].
Qed.

(** ** Invariants of the collections that the service reaches *)

Lemma Forall_replaceById (P : document -> Prop) o d' db :
  Forall P db -> P d' -> Forall P (replaceById o d' db).
Proof.
  intros Hall Hd. induction Hall as [|x db Hx Hall IH]; simpl; [constructor|].
  destruct (hasId o x); by constructor.
Qed.

Lemma Forall_removeById (P : document -> Prop) o db :
  Forall P db -> Forall P (removeById o db).
Proof.
  induction 1 as [|x db Hx Hall IH]; simpl; [constructor|].
  destruct (hasId o x); [done | by constructor].
Qed.

(** How a request changes the collection. *)
Lemma app_effect (r : request) (db : collection) :
  snd (app r db) = db \/
  (exists reqBody oid now o,
     castError (new_Room reqBody oid) = false /\
     validate (fields (new_Room reqBody oid)) = true /\
     idOf (storedDoc (new_Room reqBody oid) now) = Some o /\
     Forall (fun d => idOf d <> Some o) db /\
     existsb (clashes (storedDoc (new_Room reqBody oid) now)) db = false /\
     snd (app r db) = (db ++ [storedDoc (new_Room reqBody oid) now])%list) \/
  (exists update now o d,
     List.find (hasId o) db = Some d /\
     validateUpdate (casted (applyTimestampsToUpdate now update)) = true /\
     changesId o (casted (applyTimestampsToUpdate now update)) = false /\
     existsb (fun other => negb (hasId o other) &&
                clashes (casted (applyTimestampsToUpdate now update)) other) db = false /\
     snd (app r db)
       = replaceById o (casted (applyTimestampsToUpdate now update) ∪ d) db) \/
  (exists o, snd (app r db) = removeById o db).
Proof.
  destruct r as [q|id|reqBody oid now|id update now|id]; simpl; try (by left).
  - destruct (post_rooms_cases reqBody oid now db)
      as [(room & db' & Hsave & ->)|(e & ->)]; simpl; [|by left].
    apply save_Resolved in Hsave as (Hcast & Hval & -> & Hins).
    apply insertOne_Resolved in Hins as (-> & (o & Hkey & Hfresh) & Hno).
    right. left. by exists reqBody, oid, now, o.
  - unfold put_room, findByIdAndUpdate.
    destruct (castId id) as [k|]; [|by left].
    destruct (castable _); [|by left]. destruct (validateUpdate _) eqn:Hval; [|by left].
    simpl. destruct k; try (by left). unfold findOneAndUpdate.
    destruct (List.find (hasId o) db) as [d|] eqn:Hd; [|by left].
    destruct (changesId o _) eqn:Hch; [by left|].
    destruct (existsb _ db) eqn:Hno; [by left|]. simpl.
    right. right. left. by exists update, now, o, d.
  - destruct (delete_room_cases id db)
      as [(room & o & _ & _ & ->)|[->|(e & ->)]]; simpl; try (by left).
    right. right. right. by exists o.
Qed.

Lemma forallb_agree {A} (f g : A -> bool) (l : list A) :
  (forall x, In x l -> f x = g x) -> forallb f l = forallb g l.
Proof.
  induction l as [|x l IH]; simpl; [reflexivity|]. intros Hfg.
  rewrite (Hfg x) by (by left). rewrite IH; [reflexivity|].
  intros y Hy. apply Hfg. by right.
Qed.

Lemma validate_agree (d1 d2 : document) :
  (forall k sp, In (k, sp) roomSchema -> d1 !! k = d2 !! k) ->
  validate d1 = validate d2.
Proof.
  intros Hagree. unfold validate. apply forallb_agree.
  intros [k sp] Hin. cbn [fst snd]. by rewrite (Hagree k sp Hin).
Qed.

Lemma roomSchema_not_store k sp :
  In (k, sp) roomSchema -> k <> "__v" /\ k <> "createdAt" /\ k <> "updatedAt" /\ k <> "_id".
Proof.
  simpl. intros Hin.
  repeat (destruct Hin as [[= <- <-]|Hin]; [done|]). destruct Hin.
Qed.

Lemma storedDoc_valid doc now :
  validate (fields doc) = true -> validate (storedDoc doc now) = true.
Proof.
  intros <-. apply validate_agree. intros k sp Hin.
  apply roomSchema_not_store in Hin as (H1 & H2 & H3 & _). by apply storedDoc_lookup.
Qed.

Lemma updated_valid (upd d : document) :
  validateUpdate upd = true -> validate d = true -> validate (upd ∪ d) = true.
Proof.
  unfold validateUpdate, validate. rewrite !forallb_forall.
  intros Hupd Hd [k sp] Hin. specialize (Hupd _ Hin). specialize (Hd _ Hin).
  cbn [fst snd] in *. destruct (upd !! k) as [v|] eqn:E.
  - by rewrite (lookup_union_Some_l _ _ _ _ E).
  - by rewrite lookup_union_r.
Qed.

Lemma app_allValid (r : request) (db : collection) :
  allValid db -> allValid (snd (app r db)).
Proof.
  unfold allValid. intros IH.
  destruct (app_effect r db)
    as [->|[(reqBody & oid & now & o & _ & Hval & _ & _ & _ & ->)
           |[(update & now & o & d & Hd & Hval & _ & _ & ->)|(o & ->)]]].
  - done.
  - apply Forall_app. split; [done|]. constructor; [|constructor].
    by apply storedDoc_valid.
  - apply Forall_replaceById; [done|]. apply updated_valid; [done|].
    apply find_hasId_Some in Hd as [Hin _]. rewrite Forall_forall in IH. by apply IH.
  - by apply Forall_removeById.
Qed.

Lemma reachableSupported_room_valid (db : collection) d :
  reachableSupported db -> d ∈ db -> validate d = true.
Proof.
  intros Hreach. revert d. apply Forall_forall. fold (allValid db).
  induction Hreach as [|r db _ IH _]; [constructor | by apply app_allValid].
Qed.

(** Every room of a collection that the service reaches by requests whose
    bodies are made of names of fields passes the validators of the schema:
    its required fields are there and its type is one of the enumeration,
    also after updates that name only some of the fields. *)
Theorem reachable_valid (db : collection) : reachableSupported db -> allValid db.
Proof.
  induction 1 as [|r db _ IH _]; [constructor | by apply app_allValid].
Qed.

(** Every room of a collection that the service reaches carries a key, and a
    get by the text of that key answers 200 with that room: what a listing
    shows can be fetched by its identifier. *)
Theorem reachable_fetch (db : collection) :
  reachable db ->
  forall d, d ∈ db ->
    exists o, idOf d = Some o /\
      forall id, castId id = Some (VOid o) ->
                 get_room id db = {| status := 200; body := RoomDoc d |}.
Proof.
  intros Hreach.
  assert (Hkeyed : keyed db).
  { unfold keyed. induction Hreach as [|r db _ IH]; [constructor|].
    destruct (app_effect r db)
      as [->|[(reqBody & oid & now & o & _ & _ & Hkey & _ & _ & ->)
             |[(update & now & o & d & Hd & _ & Hch & _ & ->)|(o & ->)]]].
    - done.
    - apply Forall_app. split; [done|]. constructor; [by eexists | constructor].
    - apply Forall_replaceById; [done|]. exists o. apply updated_key; [done|].
      by apply find_hasId_Some in Hd as [_ ?].
    - by apply Forall_removeById. }
  intros d Hin. unfold keyed in Hkeyed. rewrite Forall_forall in Hkeyed.
  destruct (Hkeyed d Hin) as [o Ho]. exists o. split; [done|].
  intros id Hid. unfold get_room, findById. rewrite Hid.
  by rewrite (find_hasId_unique o db d (reachable_uniqueIds db Hreach) Hin Ho).
Qed.

Lemma roomNumbers_elem s db :
  s ∈ roomNumbers db <-> exists d, d ∈ db /\ fieldStr "roomNumber" d = Some s.
Proof. unfold roomNumbers. by rewrite list_elem_of_omap. Qed.

Lemma fieldStr_Some k (d : document) s : fieldStr k d = Some s <-> d !! k = Some (VStr s).
Proof.
  unfold fieldStr. destruct (d !! k) as [[]|]; split; congruence.
Qed.

Lemma removeById_sublist o db : sublist (removeById o db) db.
Proof.
  induction db as [|x db IH]; simpl; [constructor|].
  destruct (hasId o x); by constructor.
Qed.

Lemma roomNumbers_sublist db1 db2 :
  sublist db1 db2 -> sublist (roomNumbers db1) (roomNumbers db2).
Proof.
  unfold roomNumbers. induction 1 as [|x l1 l2 _ IH|x l1 l2 _ IH]; simpl.
  - constructor.
  - destruct (fieldStr "roomNumber" x); [by constructor | done].
  - destruct (fieldStr "roomNumber" x); [by constructor | done].
Qed.

Lemma replaceById_elem_inv o d' db y :
  y ∈ replaceById o d' db -> y = d' \/ y ∈ db.
Proof.
  induction db as [|x db IH]; simpl; [by right|].
  destruct (hasId o x); rewrite !elem_of_cons; [tauto|].
  intros [->|Hy]; [tauto|]. destruct (IH Hy); tauto.
Qed.

Lemma updated_roomNumber (upd d : document) s :
  fieldStr "roomNumber" (upd ∪ d) = Some s ->
  upd !! "roomNumber" = Some (VStr s) \/
  (upd !! "roomNumber" = None /\ fieldStr "roomNumber" d = Some s).
Proof.
  rewrite fieldStr_Some. destruct (upd !! "roomNumber") as [v|] eqn:E.
  - rewrite (lookup_union_Some_l _ _ _ _ E). intros [= ->]. by left.
  - rewrite lookup_union_r by done. rewrite <- fieldStr_Some. by right.
Qed.

Lemma replaceById_roomNumbers o upd db :
  uniqueIds db -> NoDup (roomNumbers db) ->
  existsb (fun other => negb (hasId o other) && clashes upd other) db = false ->
  forall d, List.find (hasId o) db = Some d ->
            NoDup (roomNumbers (replaceById o (upd ∪ d) db)).
Proof.
  unfold uniqueIds. induction db as [|x db IH]; simpl; [discriminate|].
  intros Hu Hnd Hno d Hfind.
  apply NoDup_cons in Hu as [Hx Hu]. apply orb_false_iff in Hno as [Hnox Hno].
  assert (Htail : NoDup (roomNumbers db)).
  { unfold roomNumbers in *. simpl in Hnd.
    destruct (fieldStr "roomNumber" x); [by apply NoDup_cons in Hnd as [_ ?] | done]. }
  assert (Hhead : forall sx, fieldStr "roomNumber" x = Some sx -> sx ∉ roomNumbers db).
  { intros sx Hsx. unfold roomNumbers in *. simpl in Hnd. rewrite Hsx in Hnd.
    by apply NoDup_cons in Hnd as [? _]. }
  destruct (hasId o x) eqn:Ex.
  - injection Hfind as <-. apply hasId_true in Ex.
    unfold roomNumbers. simpl.
    destruct (fieldStr "roomNumber" (upd ∪ x)) as [s|] eqn:Es; [|done].
    apply NoDup_cons. split; [|done]. fold (roomNumbers db).
    intros Hs. apply roomNumbers_elem in Hs as (other & Hin & Hother).
    apply updated_roomNumber in Es as [Hupd|[_ Hxs]].
    + assert (Hc : negb (hasId o other) && clashes upd other = true).
      { apply andb_true_iff. split.
        - apply negb_true_iff, hasId_false. intros Ho. apply Hx.
          rewrite Ex, <- Ho. by apply list_elem_of_fmap_2.
        - apply clashes_true. exists s. split; [done|]. by apply fieldStr_Some. }
      assert (existsb (fun other => negb (hasId o other) && clashes upd other) db = true).
      { apply existsb_exists. exists other. split; [by apply list_elem_of_In | done]. }
      congruence.
    + apply (Hhead s Hxs). apply roomNumbers_elem. by exists other.
  - specialize (IH Hu Htail Hno d Hfind).
    unfold roomNumbers. simpl.
    destruct (fieldStr "roomNumber" x) as [sx|] eqn:Esx; [|done].
    apply NoDup_cons. split; [|done]. fold (roomNumbers (replaceById o (upd ∪ d) db)).
    intros Hs. apply roomNumbers_elem in Hs as (y & Hy & Hys).
    apply replaceById_elem_inv in Hy as [->|Hy].
    + apply updated_roomNumber in Hys as [Hupd|[_ Hds]].
      * assert (Hc : clashes upd x = true).
        { apply clashes_true. exists sx. split; [done|]. by apply fieldStr_Some. }
        rewrite Hc in Hnox. discriminate.
      * apply (Hhead sx eq_refl). apply roomNumbers_elem. exists d. split; [|done].
        by apply find_hasId_Some in Hfind as [? _].
    + apply (Hhead sx eq_refl). apply roomNumbers_elem. by exists y.
Qed.

(** No two rooms of a collection that the service reaches have the same room
    number: a create and an update that would give a room the number of
    another room are refused. *)
Theorem reachable_roomNumbers (db : collection) : reachable db -> NoDup (roomNumbers db).
Proof.
  intros Hreach. induction Hreach as [|r db Hreach IH]; [apply NoDup_nil_2|].
  destruct (app_effect r db)
    as [->|[(reqBody & oid & now & o & _ & _ & _ & _ & Hno & ->)
           |[(update & now & o & d & Hd & _ & _ & Hno & ->)|(o & ->)]]].
  - done.
  - unfold roomNumbers. rewrite omap_app. apply NoDup_app. split; [done|].
    simpl. destruct (fieldStr "roomNumber" (storedDoc _ now)) as [s|] eqn:Es.
    + split; [|apply NoDup_singleton].
      intros x Hx Hx'. apply list_elem_of_singleton in Hx' as ->.
      apply roomNumbers_elem in Hx as (other & Hin & Hother).
      assert (existsb (clashes (storedDoc (new_Room reqBody oid) now)) db = true).
      { apply existsb_exists. exists other. split; [by apply list_elem_of_In|].
        apply clashes_true. exists s. by rewrite <- !fieldStr_Some. }
      congruence.
    + split; [|apply NoDup_nil_2]. intros x _ Hx. by apply elem_of_nil in Hx.
  - by apply replaceById_roomNumbers; [apply reachable_uniqueIds| | |].
  - apply (sublist_NoDup _ (roomNumbers db)); [done|].
    apply roomNumbers_sublist, removeById_sublist.
Qed.

(** ** Listings *)

Lemma filter_andb {A} (f g : A -> bool) (l : list A) :
  List.filter (fun x => f x && g x) l = List.filter f (List.filter g l).
Proof.
  induction l as [|x l IH]; simpl; [reflexivity|].
  destruct (g x); simpl; rewrite ?andb_true_r, ?andb_false_r;
    [destruct (f x); by rewrite IH | done].
Qed.

(** The two filters of a listing compose: listing by availability and type
    is listing by availability what the listing by type returns, and the
    other way round. *)
Theorem get_rooms_compose (a ty : option string) (db : collection) :
  exists byType byAvailability,
    get_rooms (textQuery None ty) db
      = {| status := 200; body := Rooms byType |} /\
    get_rooms (textQuery a None) db
      = {| status := 200; body := Rooms byAvailability |} /\
    get_rooms (textQuery a ty) db
      = get_rooms (textQuery a None) byType /\
    get_rooms (textQuery a ty) db
      = get_rooms (textQuery None ty) byAvailability.
Proof.
  rewrite (get_rooms_text None ty db), (get_rooms_text a None db).
  eexists _, _. split; [reflexivity|]. split; [reflexivity|].
  rewrite !get_rooms_text. cbn [matchesAvailable matchesType]. split; do 2 f_equal.
  - rewrite <- filter_andb. apply filter_ext. intros d.
    by rewrite andb_true_r.
  - rewrite <- filter_andb. apply filter_ext. intros d.
    rewrite andb_true_r. simpl. apply andb_comm.
Qed.

(** A listing by a text type outside the enumeration is empty on every
    collection that the service reaches by requests whose bodies are made of
    names of fields (the type is matched as it is written: there is no room
    of type [Suite]). *)
Theorem reachable_unknown_type (a : option string) (t : string) (db : collection) :
  reachableSupported db -> t <> "" -> t ∉ ["single"; "double"; "suite"] ->
  get_rooms (textQuery a (Some t)) db = {| status := 200; body := Rooms [] |}.
Proof.
  intros Hreach Ht Hout.
  destruct (get_rooms_selects a (Some t) db) as (rooms & -> & _ & Hiff).
  destruct rooms as [|d rooms]; [reflexivity|]. exfalso.
  destruct (proj1 (Hiff d)) as (Hin & _ & Hty); [by left|].
  simpl in Hty. destruct Hty as [->|Hty]; [done|].
  pose proof (reachableSupported_room_valid db d Hreach Hin) as Hvalid.
  eapply (validate_path d "type") in Hvalid; [|right; by left].
  rewrite Hty in Hvalid. unfold validPath in Hvalid. cbn [p_enum] in Hvalid.
  apply andb_true_iff in Hvalid as [_ Hvalid]. unfold checkEnum in Hvalid.
  by rewrite existsb_eqb_false in Hvalid.
Qed.

(** After a create that answers 201, for a body made of names of fields, a
    listing returns what it returned before, followed by the new room when
    the filters select it. *)
Theorem post_rooms_then_list reqBody oid now db room db' (a ty : option string) :
  supported reqBody = true ->
  post_rooms reqBody oid now db = ({| status := 201; body := RoomDoc room |}, db') ->
  exists rooms,
    get_rooms (textQuery a ty) db = {| status := 200; body := Rooms rooms |} /\
    (availabilitySelects a room /\ typeSelects ty room ->
     get_rooms (textQuery a ty) db' = {| status := 200; body := Rooms (rooms ++ [room]) |}) /\
    (~ (availabilitySelects a room /\ typeSelects ty room) ->
     get_rooms (textQuery a ty) db' = {| status := 200; body := Rooms rooms |}).
Proof.
  intros _ Hpost.
  apply post_rooms_appends in Hpost as [[_ Hst]|(room' & key & [= <-] & -> & _)];
    [discriminate|].
  rewrite !get_rooms_text. eexists. split; [reflexivity|].
  rewrite List.filter_app. simpl.
  pose proof (conj (matchesAvailable_spec a room) (matchesType_spec ty room)) as [Ha Hty].
  match goal with |- context [if ?c then _ else _] => destruct c eqn:E end.
  - split; [reflexivity|]. intros Hnot. exfalso. apply Hnot.
    apply andb_true_iff in E as [E1 E2]. split; [by apply Ha | by apply Hty].
  - split; [|by rewrite app_nil_r]. intros [H1 H2].
    apply Ha in H1. apply Hty in H2. rewrite H1, H2 in E. discriminate.
Qed.

(** ** Requests in sequence *)

(** A delete that answers 200 cannot be repeated: the same delete on the
    collection it leaves answers 404 and changes nothing. *)
Theorem delete_room_twice (id : string) (db : collection) :
  uniqueIds db ->
  status (fst (delete_room id db)) = 200 ->
  delete_room id (snd (delete_room id db))
  = ({| status := 404; body := Message "Room not found" |}, snd (delete_room id db)).
Proof.
  intros Hu Hst.
  destruct (delete_room_cases id db)
    as [(room & o & Hid & Hfind & Heq)|[Heq|(e & Heq)]]; rewrite Heq in *;
    simpl in *; try discriminate.
  unfold delete_room, findByIdAndDelete. rewrite Hid.
  pose proof (removeById_gone o db Hu) as Hgone. apply find_hasId_None in Hgone.
  by rewrite Hgone.
Qed.

Lemma removeById_snoc o (db : collection) d :
  Forall (fun x => idOf x <> Some o) db -> idOf d = Some o ->
  removeById o (db ++ [d]) = db.
Proof.
  intros Habs Hid. induction Habs as [|x db Hx _ IH]; simpl.
  - apply hasId_true in Hid. by rewrite Hid.
  - apply hasId_false in Hx. by rewrite Hx, IH.
Qed.

(** A create that answers 201 is undone by the delete of the created room:
    the delete by its identifier answers 200 with the room as the create
    returned it and leaves the collection as it was before the create. *)
Theorem post_rooms_then_delete reqBody oid now db room db' key id :
  post_rooms reqBody oid now db = ({| status := 201; body := RoomDoc room |}, db') ->
  idOf room = Some key -> castId id = Some (VOid key) ->
  delete_room id db'
  = ({| status := 200; body := Deleted "Room deleted successfully" room |}, db).
Proof.
  intros Hpost Hkey Hid.
  apply post_rooms_appends in Hpost
    as [[_ Hst]|(room' & key' & [= <-] & -> & Hkey' & _ & Hfresh)]; [discriminate|].
  assert (key' = key) as -> by congruence.
  unfold delete_room, findByIdAndDelete. rewrite Hid.
  by rewrite find_app_absent, removeById_snoc.
Qed.

Lemma findByIdAndUpdate_inv id update now db room db' :
  findByIdAndUpdate id update now db = (Resolved (Some room), db') ->
  exists o d,
    castId id = Some (VOid o) /\ List.find (hasId o) db = Some d /\
    castable (applyTimestampsToUpdate now update) = true /\
    validateUpdate (casted (applyTimestampsToUpdate now update)) = true /\
    changesId o (casted (applyTimestampsToUpdate now update)) = false /\
    existsb (fun other => negb (hasId o other) &&
               clashes (casted (applyTimestampsToUpdate now update)) other) db = false /\
    room = casted (applyTimestampsToUpdate now update) ∪ d /\
    db' = replaceById o room db.
Proof.
  unfold findByIdAndUpdate. destruct (castId id) as [k|]; [|discriminate].
  destruct (castable _) eqn:Hcast; [|discriminate].
  destruct (validateUpdate _) eqn:Hval; [|discriminate].
  simpl. destruct k; try discriminate. unfold findOneAndUpdate.
  destruct (List.find (hasId o) db) as [d|] eqn:Hd; [|discriminate].
  destruct (changesId o _) eqn:Hch; [discriminate|].
  destruct (existsb _ db) eqn:Hno; [discriminate|].
  intros [= <- <-]. by exists o, d.
Qed.

Lemma casted_update_time now now' (update : document) k :
  k <> "updatedAt" ->
  casted (applyTimestampsToUpdate now' update) !! k
  = casted (applyTimestampsToUpdate now update) !! k.
Proof.
  intros Hk. rewrite !casted_lookup. unfold applyTimestampsToUpdate.
  by rewrite !lookup_insert_ne.
Qed.

Lemma castable_update_time now now' (update : document) :
  castable (applyTimestampsToUpdate now update) = true ->
  castable (applyTimestampsToUpdate now' update) = true.
Proof.
  intros Hc. apply castable_intro. intros k v Hk.
  destruct (decide (k = "updatedAt")) as [->|Hne].
  - unfold applyTimestampsToUpdate in Hk. rewrite lookup_insert_eq in Hk.
    by injection Hk as <-.
  - apply (castable_lookup _ _ _ Hc). unfold applyTimestampsToUpdate in *.
    by rewrite lookup_insert_ne in * by done.
Qed.

Lemma clashes_agree (upd upd' other : document) :
  upd' !! "roomNumber" = upd !! "roomNumber" -> clashes upd' other = clashes upd other.
Proof. intros Heq. unfold clashes, fieldStr. simpl. by rewrite Heq. Qed.

(** An update that answers 200, with a body made of names of fields, can be
    repeated: the same update at a later time answers 200 again, with a room
    that differs from the one of the first answer in [updatedAt] only. *)
Theorem put_room_again id update now now' db room db' :
  supported update = true ->
  put_room id update now db = ({| status := 200; body := RoomDoc room |}, db') ->
  exists room' db'',
    put_room id update now' db' = ({| status := 200; body := RoomDoc room' |}, db'') /\
    (forall k, k <> "updatedAt" -> room' !! k = room !! k) /\
    room' !! "updatedAt" = Some (VDate now').
Proof.
  intros _ Hput.
  destruct (put_room_answers id update now db)
    as [(room1 & db1 & Hfind & Heq)|[Heq|(e & Heq)]]; rewrite Heq in Hput;
    try discriminate.
  injection Hput as <- <-.
  apply findByIdAndUpdate_inv in Hfind
    as (o & d & Hid & Hd & Hcast & Hval & Hch & Hno & -> & ->).
  set (upd := casted (applyTimestampsToUpdate now update)) in *.
  set (upd' := casted (applyTimestampsToUpdate now' update)).
  assert (Hsame : forall k, k <> "updatedAt" -> upd' !! k = upd !! k)
    by (intros k Hk; by apply casted_update_time).
  assert (Hkey : idOf (upd ∪ d) = Some o).
  { apply updated_key; [done|]. by apply find_hasId_Some in Hd as [_ ?]. }
  exists (upd' ∪ (upd ∪ d)), (replaceById o (upd' ∪ (upd ∪ d)) (replaceById o (upd ∪ d) db)).
  split; [|split].
  - unfold put_room, findByIdAndUpdate. rewrite Hid.
    rewrite (castable_update_time now now' update Hcast). fold upd'.
    assert (validateUpdate upd' = true) as ->.
    { rewrite <- Hval. unfold validateUpdate. apply forallb_agree.
      intros [k sp] Hin. cbn [fst snd].
      apply roomSchema_not_store in Hin as (_ & _ & Hk & _). by rewrite (Hsame k Hk). }
    simpl. unfold findOneAndUpdate.
    rewrite (replaceById_find o (upd ∪ d) db d Hkey Hd).
    assert (changesId o upd' = false) as ->.
    { unfold changesId in *. by rewrite Hsame. }
    assert (existsb (fun other => negb (hasId o other) && clashes upd' other)
              (replaceById o (upd ∪ d) db) = false) as ->; [|reflexivity].
    destruct (existsb _ (replaceById o (upd ∪ d) db)) eqn:E; [|reflexivity].
    apply existsb_exists in E as (y & Hy & Hc).
    apply list_elem_of_In, replaceById_elem_inv in Hy as [->|Hy].
    + apply hasId_true in Hkey. by rewrite Hkey in Hc.
    + rewrite (clashes_agree upd upd' y) in Hc by (by apply Hsame).
      assert (existsb (fun other => negb (hasId o other) && clashes upd other) db = true).
      { apply existsb_exists. exists y. split; [by apply list_elem_of_In | done]. }
      congruence.
  - intros k Hk. destruct (upd !! k) as [v|] eqn:E.
    + rewrite (lookup_union_Some_l upd' _ k v) by (by rewrite Hsame).
      symmetry. by apply lookup_union_Some_l.
    + rewrite lookup_union_r by (by rewrite Hsame). reflexivity.
  - apply lookup_union_Some_l. apply casted_update_stamp.
Qed.


Lemma removeById_elem_of o db room d :
  uniqueIds db -> List.find (hasId o) db = Some room ->
  d ∈ removeById o db <-> d ∈ db /\ d <> room.
Proof.
  intros Hu Hfind. apply find_hasId_Some in Hfind as Hroom. destruct Hroom as [Hin Hkey].
  pose proof (removeById_gone o db Hu) as Hgone. rewrite Forall_forall in Hgone. split.
  - intros Hd. split; [by apply removeById_sub in Hd|]. intros ->. by apply (Hgone room).
  - intros [Hd Hne]. apply removeById_others; [done|]. intros Hk. apply Hne.
    pose proof (find_hasId_unique o db d Hu Hd Hk). congruence.
Qed.

(** After a delete that answers 200, a listing returns what it returned
    before, without the deleted room. *)
Theorem delete_room_then_list id db room db' (a ty : option string) :
  uniqueIds db ->
  delete_room id db
    = ({| status := 200; body := Deleted "Room deleted successfully" room |}, db') ->
  exists before after,
    get_rooms (textQuery a ty) db = {| status := 200; body := Rooms before |} /\
    get_rooms (textQuery a ty) db' = {| status := 200; body := Rooms after |} /\
    forall d, d ∈ after <-> d ∈ before /\ d <> room.
Proof.
  intros Hu Hdel.
  destruct (delete_room_cases id db)
    as [(room1 & o & Hid & Hfind & Heq)|[Heq|(e & Heq)]]; rewrite Heq in Hdel;
    try discriminate.
  injection Hdel as <- <-.
  destruct (get_rooms_selects a ty db) as (before & Hb & _ & Hbefore).
  destruct (get_rooms_selects a ty (removeById o db)) as (after & Ha & _ & Hafter).
  exists before, after. split; [done|]. split; [done|].
  intros d. rewrite Hafter, Hbefore, (removeById_elem_of o db room1 d Hu Hfind). tauto.
Qed.

Lemma replaceById_elem_of o d' db d y :
  uniqueIds db -> List.find (hasId o) db = Some d ->
  y ∈ replaceById o d' db <-> y = d' \/ (y ∈ db /\ idOf y <> Some o).
Proof.
  intros Hu Hfind. split.
  - revert Hu Hfind. unfold uniqueIds.
    induction db as [|x db IH]; simpl; [discriminate|]. intros Hu Hfind.
    apply NoDup_cons in Hu as [Hx Hu]. destruct (hasId o x) eqn:E.
    + apply hasId_true in E. rewrite elem_of_cons. intros [->|Hy]; [by left|].
      right. split; [by right|]. intros Hk. apply Hx. rewrite E, <- Hk.
      by apply list_elem_of_fmap_2.
    + apply hasId_false in E. rewrite elem_of_cons. intros [->|Hy].
      * right. split; [by left | done].
      * destruct (IH Hu Hfind Hy) as [->|[Hin Hk]]; [by left|].
        right. split; [by right | done].
  - intros [->|[Hin Hk]]; [by apply (replaceById_elem o _ db d) | by apply replaceById_others].
Qed.

(** After an update that answers 200, a listing returns the updated room when
    the filters select it as it is after the update, and beside it the other
    rooms that it returned before. *)
Theorem put_room_then_list id update now db room db' (a ty : option string) :
  uniqueIds db ->
  put_room id update now db = ({| status := 200; body := RoomDoc room |}, db') ->
  exists before after,
    get_rooms (textQuery a ty) db = {| status := 200; body := Rooms before |} /\
    get_rooms (textQuery a ty) db' = {| status := 200; body := Rooms after |} /\
    forall d, d ∈ after <->
              (d = room /\ availabilitySelects a room /\ typeSelects ty room) \/
              (d ∈ before /\ idOf d <> idOf room).
Proof.
  intros Hu Hput.
  destruct (put_room_answers id update now db)
    as [(room1 & db1 & Hfind & Heq)|[Heq|(e & Heq)]]; rewrite Heq in Hput;
    try discriminate.
  injection Hput as <- <-.
  apply findByIdAndUpdate_inv in Hfind
    as (o & d0 & Hid & Hd & _ & _ & Hch & _ & -> & ->).
  set (room := casted (applyTimestampsToUpdate now update) ∪ d0).
  assert (Hkey : idOf room = Some o).
  { apply updated_key; [done|]. by apply find_hasId_Some in Hd as [_ ?]. }
  destruct (get_rooms_selects a ty db) as (before & Hb & _ & Hbefore).
  destruct (get_rooms_selects a ty (replaceById o room db)) as (after & Ha & _ & Hafter).
  exists before, after. split; [done|]. split; [done|].
  intros d. rewrite Hafter, Hbefore, (replaceById_elem_of o room db d0 d Hu Hd), Hkey.
  split.
  - intros [[->|[Hin Hk]] Hsel]; [by left | right; tauto].
  - intros [(-> & Hsel)|[[Hin Hsel] Hk]]; [split; [by left | done] | split; [right|]; tauto].
Qed.

(** A create that answers 201 cannot be repeated: the same body, with its
    room number given as text, is answered 500 on the collection that the
    first create leaves, whatever key is generated, and nothing is stored. *)
Theorem post_rooms_twice reqBody oid now oid' now' db room db' s :
  reqBody !! "roomNumber" = Some (VStr s) ->
  post_rooms reqBody oid now db = ({| status := 201; body := RoomDoc room |}, db') ->
  exists error,
    post_rooms reqBody oid' now' db'
      = ({| status := 500; body := Failure "Error creating room" error |}, db').
Proof.
  intros Hs Hpost.
  destruct (post_rooms_cases reqBody oid now db)
    as [(room1 & db1 & Hsave & Heq)|(e & Heq)]; rewrite Heq in Hpost;
    [|discriminate].
  injection Hpost as <- <-.
  apply save_Resolved in Hsave as (_ & _ & -> & Hins).
  apply insertOne_Resolved in Hins as (-> & _ & _).
  destruct (post_rooms_cases reqBody oid' now' (db ++ [storedDoc (new_Room reqBody oid) now]))
    as [(room2 & db2 & Hsave & _)|Hrej]; [exfalso | done].
  apply save_Resolved in Hsave as (_ & _ & -> & Hins).
  apply insertOne_Resolved in Hins as (_ & _ & Hno).
  assert (Hnum : forall o t, storedDoc (new_Room reqBody o) t !! "roomNumber" = Some (VStr s)).
  { intros o t. rewrite storedDoc_lookup by done.
    eapply (new_Room_text _ _ "roomNumber"); [by left | reflexivity | done]. }
  assert (Hyes : existsb (clashes (storedDoc (new_Room reqBody oid') now'))
                   (db ++ [storedDoc (new_Room reqBody oid) now]) = true).
  { apply existsb_exists. exists (storedDoc (new_Room reqBody oid) now).
    split; [apply in_or_app; right; by left|].
    apply clashes_true. by exists s. }
  congruence.
Qed.

End Compositions.

(** * The earlier services *)

Section EarlierServices.

Context `{Driver}.

Lemma pick_lookup (keys : list string) (reqBody : document) k :
  pick keys reqBody !! k = if decide (k ∈ keys) then reqBody !! k else None.
Proof.
  unfold pick. rewrite map_lookup_filter.
  destruct (reqBody !! k) as [v|]; simpl; [|by case_decide].
  destruct (decide (k ∈ keys)) as [Hin|Hout].
  - by rewrite option_guard_True.
  - by rewrite option_guard_False.
Qed.

Lemma insertKeyed_fresh (d : document) (db : collection) o :
  idOf d = Some o -> Forall (fun x => idOf x <> Some o) db ->
  insertKeyed d db = Resolved (db ++ [d])%list.
Proof.
  intros Hid Hfresh. unfold insertKeyed. rewrite Hid.
  apply existsb_hasId_false in Hfresh. by rewrite Hfresh.
Qed.

Lemma saveDoc_Rejected paths doc db e db' :
  saveDoc paths doc db = (Rejected e, db') -> db' = db.
Proof.
  unfold saveDoc.
  destruct (castError doc || negb (validateOf paths (fields doc))); [by intros [= _ <-]|].
  destruct (insertKeyed _ db); [discriminate | by intros [= _ <-]].
Qed.

Lemma textGiven_cast v :
  textGiven v = true ->
  exists x w, v = Some x /\ cast TString x = Some w /\ checkRequired (Some w) = true.
Proof.
  unfold textGiven. destruct v as [x|]; [|discriminate].
  destruct (cast TString x) as [w|] eqn:E; [|discriminate]. intros Hw. by exists x, w.
Qed.

Lemma saveDoc_Resolved paths doc db room db' :
  saveDoc paths doc db = (Resolved room, db') ->
  castError doc = false /\ validateOf paths (fields doc) = true.
Proof.
  unfold saveDoc. destruct (castError doc); [discriminate|].
  by destruct (validateOf paths (fields doc)).
Qed.

Lemma newDoc_v1 reqBody oid :
  newDoc roomSchemaV1 (pick ["name"; "status"] reqBody) oid
  = setPath "name" (required TString) (reqBody !! "name")
      (setPath "status" (required TString) (reqBody !! "status")
         {| fields := {[ "_id" := VOid oid ]}; castError := false |}).
Proof.
  unfold newDoc, roomSchemaV1, keyPaths. simpl. rewrite !pick_lookup.
  repeat (case_decide as Hk; [|exfalso; apply Hk; set_solver]).
  repeat (case_decide as Hk; [exfalso; set_solver by eauto|]). reflexivity.
Qed.

Lemma setPath_castError k sp v doc :
  castError (setPath k sp v doc) = false -> castError doc = false.
Proof.
  unfold setPath. destruct v as [x|].
  - by destruct (cast (p_type sp) x).
  - by destruct (p_default sp).
Qed.

Lemma setPath_other k sp v doc k' :
  k' <> k -> fields (setPath k sp v doc) !! k' = fields doc !! k'.
Proof.
  intros Hne. unfold setPath. destruct v as [x|].
  - destruct (cast (p_type sp) x); simpl; [by rewrite lookup_insert_ne | done].
  - destruct (p_default sp); simpl; [by rewrite lookup_insert_ne | done].
Qed.

(** A required path of text that validates and was cast without error was
    given an accepted value. *)
Lemma setPath_required k doc v :
  validPath (required TString) (fields (setPath k (required TString) v doc) !! k) = true ->
  castError (setPath k (required TString) v doc) = false ->
  fields doc !! k = None ->
  textGiven v = true.
Proof.
  unfold setPath, textGiven. cbn [p_type p_default required].
  destruct v as [x|].
  - destruct (cast TString x) as [w|]; simpl; [|discriminate].
    rewrite lookup_insert_eq. unfold validPath. cbn [p_required p_enum required].
    by rewrite andb_true_r.
  - intros Hv _ Hk. rewrite Hk in Hv. discriminate.
Qed.

Lemma start_v1_absent oid (v : option value) :
  fields (setPath "status" (required TString) v
            {| fields := {[ "_id" := VOid oid ]}; castError := false |}) !! "name" = None.
Proof. by rewrite setPath_other. Qed.

(** The create route of the service of rooms with a name and a status. When
    the body gives a name and a status that the paths accept, and the
    generated key is not yet in the collection, the answer is 201 with a room
    that is appended to the collection; its identifier is the generated key,
    whatever the body holds beside, and it has the four fields [_id], [name],
    [status] and [__v] and no other. When the name or the status is missing
    or not accepted, the answer is 500 and nothing is stored. *)
Theorem post_rooms_v1_answers (reqBody : document) (oid : ObjectId) (db : collection) :
  (textGiven (reqBody !! "name") = true -> textGiven (reqBody !! "status") = true ->
   Forall (fun d => idOf d <> Some oid) db ->
   exists room,
     post_rooms_v1 reqBody oid db
       = ({| status := 201; body := RoomDoc room |}, (db ++ [room])%list) /\
     idOf room = Some oid /\
     dom room = ({["_id"; "name"; "status"; "__v"]} : gset string)) /\
  (textGiven (reqBody !! "name") = false \/ textGiven (reqBody !! "status") = false ->
   exists error,
     post_rooms_v1 reqBody oid db
       = ({| status := 500; body := Failure "Error creating room" error |}, db)).
Proof.
  unfold post_rooms_v1. rewrite newDoc_v1.
  set (start := {| fields := {[ "_id" := VOid oid ]}; castError := false |}).
  split.
  - intros Hn Hs Hfresh.
    apply textGiven_cast in Hn as (n & wn & -> & Hn & Hwn).
    apply textGiven_cast in Hs as (st & ws & -> & Hs & Hws).
    unfold setPath. cbn [p_type required]. rewrite Hn, Hs.
    unfold saveDoc, validateOf, roomSchemaV1.
    cbn [fields castError forallb fst snd start].
    rewrite lookup_insert_eq, lookup_insert_ne, lookup_insert_eq by done.
    unfold validPath. cbn [p_required p_enum required]. rewrite Hwn, Hws.
    cbn [andb orb negb].
    assert (Hid : idOf (<["__v" := VNum 0]>
                          (<["name" := wn]> (<["status" := ws]> {["_id" := VOid oid]})))
                  = Some oid).
    { unfold idOf. by rewrite !lookup_insert_ne, lookup_singleton_eq. }
    rewrite (insertKeyed_fresh _ db oid Hid Hfresh).
    eexists. split; [reflexivity|]. split; [done|].
    rewrite !dom_insert_L, dom_singleton_L. set_solver.
  - intros Hbad.
    match goal with |- context [saveDoc ?ps ?doc db] =>
      destruct (saveDoc ps doc db) as [[room|e] db'] eqn:E end.
    2:{ apply saveDoc_Rejected in E as ->. by eexists. }
    exfalso. apply saveDoc_Resolved in E as (Hce & Hval).
    unfold validateOf, roomSchemaV1 in Hval. cbn [forallb fst snd] in Hval.
    apply andb_true_iff in Hval as [Hvn Hval]. apply andb_true_iff in Hval as [Hvs _].
    destruct Hbad as [Hbad|Hbad].
    + apply (setPath_required "name" _ (reqBody !! "name")) in Hvn; [congruence|done|].
      apply start_v1_absent.
    + set (doc := setPath "status" _ _ start) in *.
      rewrite setPath_other in Hvs by done.
      assert (Hce' : castError doc = false) by (by apply setPath_castError in Hce).
      apply (setPath_required "status" _ (reqBody !! "status")) in Hvs;
        [congruence|done|reflexivity].
Qed.

(** The create route of the earlier service of rooms reads the name and the
    status of the body and nothing else: two bodies that agree on both are
    answered alike. *)
Theorem post_rooms_v1_reads_name_status (reqBody reqBody' : document) oid db :
  reqBody !! "name" = reqBody' !! "name" ->
  reqBody !! "status" = reqBody' !! "status" ->
  post_rooms_v1 reqBody oid db = post_rooms_v1 reqBody' oid db.
Proof.
  intros Hn Hs. unfold post_rooms_v1. by rewrite !newDoc_v1, Hn, Hs.
Qed.

Lemma newDoc_entity reqBody oid :
  newDoc entitySchema (pick ["name"] reqBody) oid
  = setPath "name" (required TString) (reqBody !! "name")
      {| fields := {[ "_id" := VOid oid ]}; castError := false |}.
Proof.
  unfold newDoc, entitySchema, keyPaths. simpl. rewrite !pick_lookup.
  repeat (case_decide as Hk; [|exfalso; apply Hk; set_solver]).
  repeat (case_decide as Hk; [exfalso; set_solver by eauto|]). reflexivity.
Qed.

(** The create route of the service of entities. When the body gives a name
    that the path accepts, and the generated key is not yet in the
    collection, the answer is 201 with an entity that is appended to the
    collection; its identifier is the generated key and it has the three
    fields [_id], [name] and [__v] and no other. When the name is missing or
    not accepted, the answer is 500 and nothing is stored. *)
Theorem post_entities_answers (reqBody : document) (oid : ObjectId) (db : collection) :
  (textGiven (reqBody !! "name") = true ->
   Forall (fun d => idOf d <> Some oid) db ->
   exists entity,
     post_entities reqBody oid db
       = ({| status := 201; body := RoomDoc entity |}, (db ++ [entity])%list) /\
     idOf entity = Some oid /\
     dom entity = ({["_id"; "name"; "__v"]} : gset string)) /\
  (textGiven (reqBody !! "name") = false ->
   exists error,
     post_entities reqBody oid db
       = ({| status := 500; body := Failure "Error creating entity" error |}, db)).
Proof.
  unfold post_entities. rewrite newDoc_entity.
  set (start := {| fields := {[ "_id" := VOid oid ]}; castError := false |}).
  split.
  - intros Hn Hfresh.
    apply textGiven_cast in Hn as (n & wn & -> & Hn & Hwn).
    unfold setPath. cbn [p_type required]. rewrite Hn.
    unfold saveDoc, validateOf, entitySchema.
    cbn [fields castError forallb fst snd start].
    rewrite lookup_insert_eq.
    unfold validPath. cbn [p_required p_enum required]. rewrite Hwn.
    cbn [andb orb negb].
    assert (Hid : idOf (<["__v" := VNum 0]> (<["name" := wn]> {["_id" := VOid oid]}))
                  = Some oid).
    { unfold idOf. by rewrite !lookup_insert_ne, lookup_singleton_eq. }
    rewrite (insertKeyed_fresh _ db oid Hid Hfresh).
    eexists. split; [reflexivity|]. split; [done|].
    rewrite !dom_insert_L, dom_singleton_L. set_solver.
  - intros Hbad.
    match goal with |- context [saveDoc ?ps ?doc db] =>
      destruct (saveDoc ps doc db) as [[room|e] db'] eqn:E end.
    2:{ apply saveDoc_Rejected in E as ->. by eexists. }
    exfalso. apply saveDoc_Resolved in E as (Hce & Hval).
    unfold validateOf, entitySchema in Hval. cbn [forallb fst snd] in Hval.
    apply andb_true_iff in Hval as [Hvn _].
    apply (setPath_required "name" _ (reqBody !! "name")) in Hvn;
      [congruence|done|reflexivity].
Qed.

End EarlierServices.

(** * The service on concrete requests *)

Lemma post_room101 :
  post_rooms (H:=hexDriver) room101 7%N 1000%Z []
  = ({| status := 201; body := RoomDoc stored101 |}, db1).
Proof. reflexivity. Qed.

Lemma uniqueIds_db1 : uniqueIds db1.
Proof.
  unfold uniqueIds, db1. simpl. apply NoDup_singleton.
Qed.

(** ** Get by identifier *)

(** Against C1 as stated: the identifier [abc] is not a well-formed key, and
    the get answers 500, not 404. *)
Lemma get_room_malformed_key_500 :
  castId (H:=hexDriver) "abc" = None /\
  get_room (H:=hexDriver) "abc" db1
    = {| status := 500; body := Failure "Error retrieving room" CastError |} /\
  status (get_room (H:=hexDriver) "abc" db1) <> 404.
Proof. repeat split. vm_compute. discriminate. Qed.

Lemma get_room_by_key_witness :
  get_room (H:=hexDriver) "abc" db1
    = {| status := 500; body := Failure "Error retrieving room" CastError |} /\
  get_room (H:=hexDriver) key8 db1
    = {| status := 404; body := Message "Room not found" |} /\
  get_room (H:=hexDriver) key7 db1 = {| status := 200; body := RoomDoc stored101 |}.
Proof.
  split; [|split].
  - destruct (get_room_by_key (H:=hexDriver) "abc" db1) as (H500 & _ & _).
    apply H500. reflexivity.
  - destruct (get_room_by_key (H:=hexDriver) key8 db1) as (_ & H404 & _).
    apply (H404 8%N); [reflexivity|].
    repeat constructor. vm_compute. discriminate.
  - destruct (get_room_by_key (H:=hexDriver) key7 db1) as (_ & _ & H200).
    apply (H200 7%N stored101); [reflexivity | | | reflexivity].
    + apply uniqueIds_db1.
    + unfold db1. apply list_elem_of_here.
Defined.

(** ** Delete *)

(** Against C8 as stated: no stored room has the identifier [abc], and the
    delete answers 500, not 404. *)
Lemma delete_room_malformed_key_500 :
  castId (H:=hexDriver) "abc" = None /\
  Forall (fun d => d !! "_id" <> Some (VStr "abc")) db1 /\
  delete_room (H:=hexDriver) "abc" db1
    = ({| status := 500; body := Failure "Error deleting room" CastError |}, db1) /\
  status (fst (delete_room (H:=hexDriver) "abc" db1)) <> 404.
Proof.
  split; [reflexivity|]. split; [repeat constructor; discriminate|].
  split; [reflexivity|]. simpl. discriminate.
Qed.

Lemma delete_room_by_key_witness :
  delete_room (H:=hexDriver) "abc" db1
    = ({| status := 500; body := Failure "Error deleting room" CastError |}, db1) /\
  (exists db',
     delete_room (H:=hexDriver) key7 db1
       = ({| status := 200; body := Deleted "Room deleted successfully" stored101 |}, db') /\
     (stored101 ∉ db') /\
     (forall d', d' ∈ db' <-> d' ∈ db1 /\ d' <> stored101) /\
     get_room (H:=hexDriver) key7 db' = {| status := 404; body := Message "Room not found" |}) /\
  delete_room (H:=hexDriver) key8 db1
    = ({| status := 404; body := Message "Room not found" |}, db1).
Proof.
  pose proof uniqueIds_db1 as Hu. split; [|split].
  - destruct (delete_room_by_key (H:=hexDriver) "abc" db1) as [Hbad _].
    apply Hbad. reflexivity.
  - destruct (delete_room_by_key (H:=hexDriver) key7 db1) as [_ Hkey].
    destruct (Hkey 7%N eq_refl Hu) as [Hdel _].
    apply (Hdel stored101); [apply list_elem_of_here | reflexivity].
  - destruct (delete_room_by_key (H:=hexDriver) key8 db1) as [_ Hkey].
    destruct (Hkey 8%N eq_refl Hu) as [_ Habs].
    apply Habs. repeat constructor. vm_compute. discriminate.
Defined.

(** ** Listing *)

Lemma post_room102 :
  post_rooms (H:=hexDriver) room102 8%N 2000%Z db1
  = ({| status := 201; body := RoomDoc stored102 |}, db2).
Proof. reflexivity. Qed.

(** The availability parameter on sample values: only the text [true] lists
    the available room. *)
Example get_rooms_available_values :
  map (fun a => body (get_rooms (H:=hexDriver) (textQuery (Some a) None) db2))
      ["true"; "false"; "True"; "1"; ""]
  = [Rooms [stored101]; Rooms [stored102]; Rooms [stored102]; Rooms [stored102];
     Rooms [stored102]].
Proof. reflexivity. Qed.


(** The type parameter given twice, and given with a bracket, on the sample
    collection: the driver of the examples reads the array as any of its
    texts, and the object as its [$ne]. *)
Example get_rooms_type_conditions :
  get_rooms (H:=hexDriver) {| available := None; type := Some suiteOrSingle |} db2
    = {| status := 200; body := Rooms [stored101] |} /\
  get_rooms (H:=hexDriver) {| available := None; type := Some notSuite |} db2
    = {| status := 200; body := Rooms [stored102] |}.
Proof. split; reflexivity. Qed.

Lemma get_rooms_filter_witness :
  (exists rooms,
     get_rooms (H:=hexDriver) (textQuery None (Some "single")) db2
       = {| status := 200; body := Rooms rooms |} /\
     rooms = []) /\
  (exists rooms,
     get_rooms (H:=hexDriver)
       {| available := Some (PArray [PText "true"]); type := Some notSuite |} db2
       = {| status := 200; body := Rooms rooms |} /\
     sublist rooms db2 /\
     forall d, d ∈ rooms <->
               d ∈ db2 /\ d !! "isAvailable" = Some (VBool false) /\
               negb (matchesType (Some "suite") d) = true) /\
  get_rooms (H:=hexDriver) {| available := None; type := Some byPrice |} db2
    = {| status := 500; body := Failure "Error retrieving rooms" CastError |}.
Proof.
  split; [|split].
  - destruct (get_rooms_filter (H:=hexDriver) (textQuery None (Some "single")) db2)
      as [Htext _].
    destruct (Htext (Some "single") eq_refl) as (rooms & Heq & _ & _ & Hnone).
    exists rooms. split; [done|]. apply Hnone.
    intros d Hin [_ [Hempty|Hty]]; [discriminate|].
    repeat (apply elem_of_cons in Hin as [->|Hin]; [discriminate|]).
    by apply elem_of_nil in Hin.
  - destruct (get_rooms_filter (H:=hexDriver)
                {| available := Some (PArray [PText "true"]); type := Some notSuite |} db2)
      as [_ Hcond].
    exact (Hcond notSuite eq_refl I).
  - destruct (get_rooms_filter (H:=hexDriver)
                {| available := None; type := Some byPrice |} db2) as [_ Hcond].
    exact (Hcond byPrice eq_refl I).
Defined.

(** Against C4 as stated: with the type parameter supplied as the empty text,
    the listing returns a room whose type is not that text. *)
Lemma get_rooms_empty_type_lists_all :
  get_rooms (H:=hexDriver) (textQuery None (Some "")) db1
    = {| status := 200; body := Rooms [stored101] |} /\
  stored101 !! "type" = Some (VStr "suite") /\
  ~ typeSupplied (Some "") stored101.
Proof. repeat split. vm_compute. discriminate. Qed.

(** ** Create *)

(** Against C2 as stated: the body has all required fields and satisfies the
    constraints, and has an [_id]; the create answers 201 with a room whose
    identifier is that [_id], not the key 7 that the store generated. *)
Lemma post_rooms_key_from_body :
  exists room,
    post_rooms (H:=hexDriver) (<["_id" := VStr clientKey]> room101) 7%N 1000%Z []
      = ({| status := 201; body := RoomDoc room |}, [room]) /\
    idOf room = hexObjectId clientKey /\
    idOf room <> Some 7%N.
Proof.
  eexists. split; [reflexivity|]. split; [reflexivity|].
  vm_compute. discriminate.
Qed.

Lemma post_rooms_created_witness :
  exists room,
    post_rooms (H:=hexDriver) room102 8%N 2000%Z db1
      = ({| status := 201; body := RoomDoc room |}, (db1 ++ [room])%list) /\
    idOf room = Some 8%N /\
    (room102 !! "_id" = None -> 8%N = 8%N) /\
    exists c, room !! "createdAt" = Some c /\ room !! "updatedAt" = Some c /\
              c <> VNull /\ (room102 !! "createdAt" = None -> c = VDate 2000%Z).
Proof.
  apply (post_rooms_created (H:=hexDriver) room102 8%N 2000%Z db1 8%N).
  - reflexivity.
  - reflexivity.
  - reflexivity.
  - repeat constructor. vm_compute. discriminate.
  - intros s Hs. vm_compute in Hs. injection Hs as <-.
    repeat constructor. vm_compute. discriminate.
Defined.

Lemma post_rooms_rejected_witness :
  (exists error,
     post_rooms (H:=hexDriver) (delete "price" room102) 8%N 2000%Z db1
       = ({| status := 500; body := Failure "Error creating room" error |}, db1)) /\
  (exists error,
     post_rooms (H:=hexDriver) (<["type" := VStr "penthouse"]> room102) 8%N 2000%Z db1
       = ({| status := 500; body := Failure "Error creating room" error |}, db1)) /\
  (exists error,
     post_rooms (H:=hexDriver) (<["price" := VStr "cheap"]> room102) 8%N 2000%Z db1
       = ({| status := 500; body := Failure "Error creating room" error |}, db1)) /\
  (exists error,
     post_rooms (H:=hexDriver) (<["roomNumber" := VStr "101"]> room102) 8%N 2000%Z db1
       = ({| status := 500; body := Failure "Error creating room" error |}, db1)) /\
  (exists error,
     post_rooms (H:=hexDriver) (<["roomNumber" := VStr ""]> room102) 8%N 2000%Z db1
       = ({| status := 500; body := Failure "Error creating room" error |}, db1)).
Proof.
  split; [|split; [|split; [|split]]]; apply post_rooms_rejected.
  - left. exists "price", {| p_type := TNumber; p_required := true; p_enum := None;
                             p_default := None; p_unique := false |}.
    split; [|split; reflexivity]. unfold roomSchema. do 2 apply list_elem_of_further.
    apply list_elem_of_here.
  - right. left.
    exists "type", {| p_type := TString; p_required := true;
                      p_enum := Some ["single"; "double"; "suite"];
                      p_default := None; p_unique := false |},
           ["single"; "double"; "suite"], "penthouse".
    split; [|split; [reflexivity|split; [reflexivity|]]].
    + unfold roomSchema. apply list_elem_of_further, list_elem_of_here.
    + intros Hin. repeat (apply elem_of_cons in Hin as [Hin|Hin]; [discriminate|]).
      by apply elem_of_nil in Hin.
  - right. right. left. exists "price", (VStr "cheap"). split; reflexivity.
  - right. right. right. left. exists "101", stored101.
    split; [reflexivity|]. split; [apply list_elem_of_here | reflexivity].
  - right. right. right. right. reflexivity.
Defined.

(** Against C3 as stated: the body has a field [color]; the room that the get
    returns after the create has no such field. *)
Lemma created_room_drops_unknown_field :
  exists room db',
    post_rooms (H:=hexDriver) (<["color" := VStr "red"]> room101) 7%N 1000%Z []
      = ({| status := 201; body := RoomDoc room |}, db') /\
    get_room (H:=hexDriver) key7 db' = {| status := 200; body := RoomDoc room |} /\
    (<["color" := VStr "red"]> room101) !! "color" = Some (VStr "red") /\
    room !! "color" = None.
Proof.
  eexists _, _. split; [reflexivity|]. repeat split.
Qed.

Lemma created_room_read_back_witness :
  exists room key,
    RoomDoc stored101 = RoomDoc room /\ idOf room = Some key /\
    (forall id, castId (H:=hexDriver) id = Some (VOid key) ->
                get_room (H:=hexDriver) id db1 = {| status := 200; body := RoomDoc room |}) /\
    (forall k sp v, (k, sp) ∈ roomSchema -> room101 !! k = Some v ->
                    has_type (p_type sp) v = true -> room !! k = Some v) /\
    (room101 !! "isAvailable" = None -> room !! "isAvailable" = Some (VBool true)) /\
    (room101 !! "amenities" = None -> room !! "amenities" = Some (VArr [])) /\
    (forall k, schemaPath k = None -> room !! k = None).
Proof.
  apply (created_room_read_back (H:=hexDriver) room101 7%N 1000%Z []
           {| status := 201; body := RoomDoc stored101 |} db1).
  - reflexivity.
  - reflexivity.
  - reflexivity.
Defined.

(** ** Update *)

(** Against C6 as stated: no stored room carries the key 8, and the update,
    whose body gives a type outside the enumeration, answers 500, not 404. *)
Lemma put_room_absent_key_invalid_body_500 :
  castId (H:=hexDriver) key8 = Some (VOid 8%N) /\
  Forall (fun d => idOf d <> Some 8%N) db1 /\
  put_room (H:=hexDriver) key8 penthouse 2000%Z db1
    = ({| status := 500; body := Failure "Error updating room" ValidationError |}, db1).
Proof.
  split; [reflexivity|]. split; [|reflexivity].
  repeat constructor. vm_compute. discriminate.
Qed.

Lemma put_room_by_key_witness :
  put_room (H:=hexDriver) "abc" price200 2000%Z db1
    = ({| status := 500; body := Failure "Error updating room" CastError |}, db1) /\
  (exists error,
     put_room (H:=hexDriver) key7 penthouse 2000%Z db1
       = ({| status := 500; body := Failure "Error updating room" error |}, db1)) /\
  put_room (H:=hexDriver) key8 price200 2000%Z db1
    = ({| status := 404; body := Message "Room not found" |}, db1) /\
  exists room db',
    put_room (H:=hexDriver) key7 price200 2000%Z db1
      = ({| status := 200; body := RoomDoc room |}, db') /\
    idOf room = Some 7%N /\
    get_room (H:=hexDriver) key7 db' = {| status := 200; body := RoomDoc room |} /\
    (forall k sp v, (k, sp) ∈ roomSchema -> price200 !! k = Some v ->
                    has_type (p_type sp) v = true -> room !! k = Some v).
Proof.
  assert (Hs : supported price200 = true) by reflexivity.
  assert (Hs' : supported penthouse = true) by reflexivity.
  assert (Hc : updateConforms (H:=hexDriver) price200 = true) by reflexivity.
  split; [|split; [|split]].
  - destruct (put_room_by_key (H:=hexDriver) "abc" price200 2000%Z db1 Hs) as [Hbad _].
    apply Hbad. reflexivity.
  - destruct (put_room_by_key (H:=hexDriver) key7 penthouse 2000%Z db1 Hs') as [_ Hkey].
    destruct (Hkey 7%N eq_refl) as (Hbad & _ & _). apply Hbad. reflexivity.
  - destruct (put_room_by_key (H:=hexDriver) key8 price200 2000%Z db1 Hs) as [_ Hkey].
    destruct (Hkey 8%N eq_refl) as (_ & Habs & _). apply (Habs Hc).
    repeat constructor. vm_compute. discriminate.
  - destruct (put_room_by_key (H:=hexDriver) key7 price200 2000%Z db1 Hs) as [_ Hkey].
    destruct (Hkey 7%N eq_refl) as (_ & _ & Hupd).
    apply (Hupd Hc stored101); [apply list_elem_of_here | reflexivity | |].
    + intros v Hv. vm_compute in Hv. discriminate.
    + intros s Hn. vm_compute in Hn. discriminate.
Defined.

(** Against C7 as stated: the body names [price] only, and the update changes
    [updatedAt] as well. *)
Lemma put_room_changes_updatedAt :
  exists room db',
    put_room (H:=hexDriver) key7 price200 2000%Z db1
      = ({| status := 200; body := RoomDoc room |}, db') /\
    price200 !! "updatedAt" = None /\
    stored101 !! "updatedAt" = Some (VDate 1000%Z) /\
    room !! "updatedAt" = Some (VDate 2000%Z).
Proof.
  eexists _, _. split; [reflexivity|]. repeat split.
Qed.

Lemma put_room_frame_witness :
  exists o d,
    castId (H:=hexDriver) key7 = Some (VOid o) /\ d ∈ db1 /\ idOf d = Some o /\
    updated101
      ∈ [updated101] /\
    idOf updated101
      = Some o /\
    (forall k, price200 !! k = None ->
               k <> "updatedAt" ->
               updated101 !! k
               = d !! k) /\
    updated101 !! "updatedAt"
      = Some (VDate 2000%Z) /\
    (forall d', d' ∈ db1 -> idOf d' <> Some o ->
                d' ∈ [updated101]).
Proof.
  apply (put_room_frame (H:=hexDriver) key7 price200 2000%Z db1).
  - reflexivity.
  - reflexivity.
Defined.

(** ** Identifiers *)

(** Against C9 as stated: the identifier of the created room is the key that
    the client put in the body, not the key 9 that the store generated. *)
Lemma created_identifier_chosen_by_client :
  exists room,
    post_rooms (H:=hexDriver) (<["_id" := VStr "aaaaaaaaaaaaaaaaaaaaaaaa"]> room102)
      9%N 3000%Z db1
      = ({| status := 201; body := RoomDoc room |}, (db1 ++ [room])%list) /\
    room102 !! "_id" = None /\
    idOf room = hexObjectId "aaaaaaaaaaaaaaaaaaaaaaaa" /\
    idOf room <> Some 9%N.
Proof.
  eexists. split; [reflexivity|]. split; [reflexivity|].
  split; [reflexivity|]. vm_compute. discriminate.
Qed.

Lemma identifiers_kept_witness :
  uniqueIds (snd (post_rooms (H:=hexDriver) room102 8%N 2000%Z db1)) /\
  map idOf (snd (put_room (H:=hexDriver) key7 price200 2000%Z db1))
    = map idOf db1 /\
  uniqueIds (snd (delete_room (H:=hexDriver) key7 db1)).
Proof.
  pose proof uniqueIds_db1 as Hu.
  assert (Hs : supported room102 = true) by reflexivity.
  assert (Hs' : supported price200 = true) by reflexivity.
  destruct (identifiers_kept (H:=hexDriver) room102 price200
              key7 key7 8%N 2000%Z db1 Hs Hs' Hu) as (Hpost & Hput & Hdel).
  split; [|split].
  - by apply (Hpost _ _ (surjective_pairing _)).
  - by apply (Hput _ _ (surjective_pairing _)).
  - by apply (Hdel _ _ (surjective_pairing _)).
Defined.

(** ** Further properties, on the sample collection *)

Lemma reachable_db1 : reachable (H:=hexDriver) db1.
Proof.
  change db1 with (snd (app (H:=hexDriver) (POST_rooms room101 7%N 1000%Z) [])).
  apply reachable_step, reachable_empty.
Qed.

Lemma reachable_db2 : reachable (H:=hexDriver) db2.
Proof.
  change db2 with (snd (app (H:=hexDriver) (POST_rooms room102 8%N 2000%Z) db1)).
  apply reachable_step, reachable_db1.
Qed.

Lemma app_failure_unchanged_witness :
  snd (app (H:=hexDriver) (PUT_room key8 price200 2000%Z) db1) = db1 /\
  (fst (app (H:=hexDriver) (PUT_room key8 price200 2000%Z) db1)
     = {| status := 404; body := Message "Room not found" |} \/
   exists message error,
     fst (app (H:=hexDriver) (PUT_room key8 price200 2000%Z) db1)
       = {| status := 500; body := Failure message error |}).
Proof.
  apply (app_failure_unchanged (H:=hexDriver) (PUT_room key8 price200 2000%Z) db1);
    vm_compute; discriminate.
Defined.

Lemma reachableSupported_db2 : reachableSupported (H:=hexDriver) db2.
Proof.
  change db2 with (snd (app (H:=hexDriver) (POST_rooms room102 8%N 2000%Z)
                     (snd (app (H:=hexDriver) (POST_rooms room101 7%N 1000%Z) [])))).
  apply supported_step; [apply supported_step; [apply supported_empty|]|]; reflexivity.
Qed.

Lemma reachable_valid_witness : allValid db2.
Proof. apply (reachable_valid (H:=hexDriver) db2 reachableSupported_db2). Defined.

Lemma reachable_fetch_witness :
  exists o, idOf stored102 = Some o /\
    forall id, castId (H:=hexDriver) id = Some (VOid o) ->
               get_room (H:=hexDriver) id db2 = {| status := 200; body := RoomDoc stored102 |}.
Proof.
  apply (reachable_fetch (H:=hexDriver) db2 reachable_db2 stored102).
  unfold db2. apply list_elem_of_further, list_elem_of_here.
Defined.

Lemma reachable_roomNumbers_witness : NoDup (roomNumbers db2).
Proof. apply (reachable_roomNumbers (H:=hexDriver) db2 reachable_db2). Defined.

Lemma reachable_unknown_type_witness :
  get_rooms (H:=hexDriver) (textQuery None (Some "Suite")) db2
  = {| status := 200; body := Rooms [] |}.
Proof.
  apply (reachable_unknown_type (H:=hexDriver) None "Suite" db2 reachableSupported_db2).
  - discriminate.
  - intros Hin. repeat (apply elem_of_cons in Hin as [Hin|Hin]; [discriminate|]).
    by apply elem_of_nil in Hin.
Defined.

Lemma post_rooms_then_list_witness :
  exists rooms,
    get_rooms (H:=hexDriver) (textQuery (Some "false") None) db1
      = {| status := 200; body := Rooms rooms |} /\
    get_rooms (H:=hexDriver) (textQuery (Some "false") None) db2
      = {| status := 200; body := Rooms (rooms ++ [stored102]) |}.
Proof.
  assert (Hs : supported room102 = true) by reflexivity.
  destruct (post_rooms_then_list (H:=hexDriver) room102 8%N 2000%Z db1 stored102 db2
              (Some "false") None Hs post_room102)
    as (rooms & Hbefore & Hyes & _).
  exists rooms. split; [done|]. apply Hyes. split; reflexivity.
Defined.

Lemma delete_room_twice_witness :
  delete_room (H:=hexDriver) key7 (snd (delete_room (H:=hexDriver) key7 db2))
  = ({| status := 404; body := Message "Room not found" |},
     snd (delete_room (H:=hexDriver) key7 db2)).
Proof.
  apply (delete_room_twice (H:=hexDriver) key7 db2).
  - apply (reachable_uniqueIds db2 reachable_db2).
  - reflexivity.
Defined.

Lemma post_rooms_then_delete_witness :
  delete_room (H:=hexDriver) key8 db2
  = ({| status := 200; body := Deleted "Room deleted successfully" stored102 |}, db1).
Proof.
  apply (post_rooms_then_delete (H:=hexDriver) room102 8%N 2000%Z db1 stored102 db2 8%N key8
           post_room102); reflexivity.
Defined.

Lemma put_room101 :
  put_room (H:=hexDriver) key7 price200 2000%Z db1
  = ({| status := 200; body := RoomDoc updated101 |}, [updated101]).
Proof. reflexivity. Qed.

Lemma put_room_again_witness :
  exists room' db'',
    put_room (H:=hexDriver) key7 price200 3000%Z [updated101]
      = ({| status := 200; body := RoomDoc room' |}, db'') /\
    (forall k, k <> "updatedAt" -> room' !! k = updated101 !! k) /\
    room' !! "updatedAt" = Some (VDate 3000%Z).
Proof.
  assert (Hs : supported price200 = true) by reflexivity.
  apply (put_room_again (H:=hexDriver) key7 price200 2000%Z 3000%Z db1 updated101
           [updated101] Hs put_room101).
Defined.


(** ** The earlier services on sample requests *)

Lemma post_rooms_v1_answers_witness :
  (exists room,
     post_rooms_v1 (H:=hexDriver) blueRoom 9%N db1
       = ({| status := 201; body := RoomDoc room |}, (db1 ++ [room])%list) /\
     idOf room = Some 9%N /\
     dom room = ({["_id"; "name"; "status"; "__v"]} : gset string)) /\
  (exists error,
     post_rooms_v1 (H:=hexDriver) nameOnly 9%N db1
       = ({| status := 500; body := Failure "Error creating room" error |}, db1)).
Proof.
  split.
  - destruct (post_rooms_v1_answers (H:=hexDriver) blueRoom 9%N db1) as [Hok _].
    apply Hok; [reflexivity | reflexivity |].
    repeat constructor. vm_compute. discriminate.
  - destruct (post_rooms_v1_answers (H:=hexDriver) nameOnly 9%N db1) as [_ Hbad].
    apply Hbad. right. reflexivity.
Defined.

Lemma post_rooms_v1_reads_name_status_witness :
  post_rooms_v1 (H:=hexDriver) blueRoom 9%N db1
  = post_rooms_v1 (H:=hexDriver) blueRoomOnly 9%N db1.
Proof.
  apply (post_rooms_v1_reads_name_status (H:=hexDriver) blueRoom blueRoomOnly 9%N db1);
    reflexivity.
Defined.

Lemma post_entities_answers_witness :
  (exists entity,
     post_entities (H:=hexDriver) blueRoom 9%N []
       = ({| status := 201; body := RoomDoc entity |}, [entity]) /\
     idOf entity = Some 9%N /\
     dom entity = ({["_id"; "name"; "__v"]} : gset string)) /\
  (exists error,
     post_entities (H:=hexDriver) (delete "name" blueRoom) 9%N []
       = ({| status := 500; body := Failure "Error creating entity" error |}, [])).
Proof.
  split.
  - destruct (post_entities_answers (H:=hexDriver) blueRoom 9%N []) as [Hok _].
    apply Hok; [reflexivity | constructor].
  - destruct (post_entities_answers (H:=hexDriver) (delete "name" blueRoom) 9%N [])
      as [_ Hbad].
    apply Hbad. reflexivity.
Defined.

Lemma delete_room_then_list_witness :
  exists before after,
    get_rooms (H:=hexDriver) (textQuery None None) db2
      = {| status := 200; body := Rooms before |} /\
    get_rooms (H:=hexDriver) (textQuery None None) db1
      = {| status := 200; body := Rooms after |} /\
    forall d, d ∈ after <-> d ∈ before /\ d <> stored102.
Proof.
  apply (delete_room_then_list (H:=hexDriver) key8 db2 stored102 db1).
  - apply (reachable_uniqueIds db2 reachable_db2).
  - reflexivity.
Defined.

Lemma put_room_then_list_witness :
  exists before after,
    get_rooms (H:=hexDriver) (textQuery (Some "true") None) db1
      = {| status := 200; body := Rooms before |} /\
    get_rooms (H:=hexDriver) (textQuery (Some "true") None) [updated101]
      = {| status := 200; body := Rooms after |} /\
    forall d, d ∈ after <->
              (d = updated101 /\ availabilitySelects (Some "true") updated101 /\
               typeSelects None updated101) \/
              (d ∈ before /\ idOf d <> idOf updated101).
Proof.
  apply (put_room_then_list (H:=hexDriver) key7 price200 2000%Z db1 updated101 [updated101]).
  - apply uniqueIds_db1.
  - reflexivity.
Defined.

Lemma post_rooms_twice_witness :
  exists error,
    post_rooms (H:=hexDriver) room102 9%N 3000%Z db2
      = ({| status := 500; body := Failure "Error creating room" error |}, db2).
Proof.
  apply (post_rooms_twice (H:=hexDriver) room102 8%N 2000%Z 9%N 3000%Z db1 stored102 db2 "102").
  - reflexivity.
  - reflexivity.
Defined.
